(** * SCC report generator: a shallow embedding of [src/cloudfunction.py]

    The cloud function [generate_scc_report] loops over a hardcoded list of
    projects, fetches the security findings of each one, groups them by
    category, flattens every finding into a spreadsheet row (VM sheet or
    Kubernetes sheet), writes one workbook per category and uploads it.

    The embedding keeps the shape of the Python code:
    - protobuf messages are records. The findings client returns proto-plus
      messages, so a sub-message is never [None]: one that is not set reads
      as the empty message, its string fields as [""], and a message is
      falsy exactly when none of its fields is set;
    - dictionaries with a fixed key set (the rows) are records, the two
      static folder tables are [gmap]s, and [category_buckets], whose
      iteration order is observable, is an insertion-ordered association
      list;
    - the external collaborators (environment, clock, findings client,
      spreadsheet writer, bucket, file system) are the fields of a
      [Services] record; every call is recorded in a chronological event
      log, and exceptions travel in a small state-and-error monad;
    - the [print] calls, which only write to the function's log and cannot
      fail, are left out. *)

From Stdlib Require Import ZArith.
From stdpp Require Import base option list strings gmap fin_maps.

Local Open Scope string_scope.
Local Open Scope list_scope.
Local Open Scope Z_scope.

(** ** Strings *)

Definition newline : string := String (Ascii.ascii_of_nat 10) EmptyString.
Definition dquote : string := String (Ascii.ascii_of_nat 34) EmptyString.

(** Python truthiness of a [str]: the empty string is falsy. *)
Definition str_truthy (s : string) : bool :=
  match s with
  | EmptyString => false
  | String _ _ => true
  end.

(** [sep.join(l)] *)
Fixpoint join (sep : string) (l : list string) : string :=
  match l with
  | [] => ""
  | [x] => x
  | x :: rest => x +:+ sep +:+ join sep rest
  end.

(** ** Exceptions and results *)

Inductive Exception : Type :=
  | ValueError (msg : string)
  | ServiceError (msg : string).

(** [str(e)] *)
Definition str_of_exception (e : Exception) : string :=
  match e with
  | ValueError msg => msg
  | ServiceError msg => msg
  end.

Inductive Res (A : Type) : Type :=
  | Ok (a : A)
  | Raise (e : Exception).
Arguments Ok {A} a.
Arguments Raise {A} e.

(** ** The findings data model (the attributes the function reads) *)

Inductive Severity : Type :=
  | SEVERITY_UNSPECIFIED | CRITICAL | HIGH | MEDIUM | LOW.

(** The [.._other_fields_set] flag of a message says whether one of the
    fields that the function does not read is set; it only matters for the
    truthiness of the message. *)
Record Cve := {
  cve_id_of : string;
  cve_other_fields_set : bool }.

Record Package := {
  package_name : string;
  package_type : string;
  package_version : string;
  package_other_fields_set : bool }.

Record Vulnerability := {
  cve : Cve;
  offending_package : Package;
  fixed_package : Package }.

Record File := { path : string }.

Record Container := { uri : string }.

Record K8sObject := {
  ns : string;
  name : string;
  containers : list Container }.

Record Kubernetes := { objects : list K8sObject }.

Record Finding := {
  category : string;
  severity : Severity;
  vulnerability : Vulnerability;
  files : list File;
  kubernetes : Kubernetes;
  event_time : Z }.

Record Resource := {
  type : string;
  display_name : string }.

(** One element of [all_data]: [{"finding": ..., "resource": ...}]. *)
Record Item := {
  finding : Finding;
  resource : Resource }.

(** ** Rows *)

(** [base_row], with the ["affected_files"] key that is added right after
    the literal. *)
Record BaseRow := {
  row_severity : Severity;
  row_cve_id : option string;
  row_package_name : string;
  row_package_type : string;
  row_offending_package_version : option string;
  row_fixed_package_version : option string;
  row_affected_files : string }.

(** [{**base_row, "vm_name": ..., "event_time": ...}] *)
Record VmRow := {
  vm_base : BaseRow;
  vm_name : string;
  vm_event_time : Z }.

(** [{**base_row, "cluster_name": ..., "namespace": ..., ...}] *)
Record K8sRow := {
  k8s_base : BaseRow;
  cluster_name : string;
  namespace : string;
  k8s_object_name : string;
  image_uri : string;
  k8s_event_time : Z }.

(** ** Row extraction (source lines 160-229) *)

(** Truthiness of a message: some field is set. *)
Definition cve_truthy (c : Cve) : bool :=
  str_truthy (cve_id_of c) || cve_other_fields_set c.

Definition package_truthy (p : Package) : bool :=
  str_truthy (package_name p) || str_truthy (package_type p)
  || str_truthy (package_version p) || package_other_fields_set p.

(** [offending.f if offending and offending.f else fixed.f] *)
Definition prefer_offending (f : Package -> string) (offending fixed : Package) : string :=
  if package_truthy offending && str_truthy (f offending) then f offending else f fixed.

(** The list built by the loop over [finding.files]. *)
Definition affected_files_list (fs : list File) : list string :=
  map path (filter (fun f => str_truthy (path f) = true) fs).

(** The dict literal of lines 170-189 followed by the ["affected_files"]
    assignment of line 196. *)
Definition base_row (it : Item) : BaseRow :=
  let finding := finding it in
  let vulnerability := vulnerability finding in
  let fixed := fixed_package vulnerability in
  let offending := offending_package vulnerability in
  {| row_severity := severity finding;
     row_cve_id :=
       if cve_truthy (cve vulnerability) then Some (cve_id_of (cve vulnerability))
       else None;
     row_package_name := prefer_offending package_name offending fixed;
     row_package_type := prefer_offending package_type offending fixed;
     row_offending_package_version :=
       if package_truthy offending then Some (package_version offending) else None;
     row_fixed_package_version :=
       if package_truthy fixed then Some (package_version fixed) else None;
     row_affected_files := join newline (affected_files_list (files finding)) |}.

Definition COMPUTE_INSTANCE : string := "google.compute.Instance".
Definition CONTAINER_CLUSTER : string := "google.container.Cluster".

Definition vm_row (b : BaseRow) (it : Item) : VmRow :=
  {| vm_base := b;
     vm_name := display_name (resource it);
     vm_event_time := event_time (finding it) |}.

(** [container_uris] joined with [", "]. *)
Definition image_uri_of (o : K8sObject) : string :=
  join ", " (map uri (filter (fun c => str_truthy (uri c) = true) (containers o))).

Definition k8s_row (b : BaseRow) (it : Item) (o : K8sObject) : K8sRow :=
  {| k8s_base := b;
     cluster_name := display_name (resource it);
     namespace := ns o;
     k8s_object_name := name o;
     image_uri := image_uri_of o;
     k8s_event_time := event_time (finding it) |}.

(** One iteration of [for item in findings] on the two tables. *)
Definition process_item (tables : list VmRow * list K8sRow) (it : Item)
    : list VmRow * list K8sRow :=
  let '(vms, k8s) := tables in
  let b := base_row it in
  if decide (type (resource it) = COMPUTE_INSTANCE) then
    (vms ++ [vm_row b it], k8s)
  else if decide (type (resource it) = CONTAINER_CLUSTER) then
    match objects (kubernetes (finding it)) with
    | [] => (vms, k8s)
    | k8s_obj :: _ => (vms, k8s ++ [k8s_row b it k8s_obj])
    end
  else (vms, k8s).

(** [vms = []; k8s = []; for item in findings: ...] *)
Definition process_findings (findings : list Item) : list VmRow * list K8sRow :=
  fold_left process_item findings ([], []).

(** ** Bucketing by category (source lines 113-117) *)

(** [finding_data.category or "UNKNOWN"] *)
Definition category_or_unknown (it : Item) : string :=
  if str_truthy (category (finding it)) then category (finding it) else "UNKNOWN".

(** [d.setdefault(k, []).append(v)] on an insertion-ordered dictionary: an
    existing key keeps its position, a new key goes last. *)
Fixpoint setdefault_append (k : string) (v : Item) (d : list (string * list Item))
    : list (string * list Item) :=
  match d with
  | [] => [(k, [v])]
  | (k', vs) :: d' =>
      if decide (k' = k) then (k', vs ++ [v]) :: d'
      else (k', vs) :: setdefault_append k v d'
  end.

Definition bucket_into (d : list (string * list Item)) (all_data : list Item)
    : list (string * list Item) :=
  fold_left (fun d it => setdefault_append (category_or_unknown it) it d) all_data d.

Definition category_buckets (all_data : list Item) : list (string * list Item) :=
  bucket_into [] all_data.

(** ** Static configuration (source lines 19-27, 36-41, 51-52, 60-76) *)

Record Config := {
  project_ids : list string;
  category_folder_map : gmap string string;
  project_folder_map : gmap string string }.

Definition PROJECT_IDS : list string :=
  [ "toorak-396910";
    "merchants-396910";
    "shared-infrastructure-396910";
    "network-396910";
    "dev-ops-396910";
    "table-funding";
    "originator-platform-396910" ].

Definition CATEGORY_FOLDER_MAP : gmap string string :=
  <["SOFTWARE_VULNERABILITY" := "software_vulnerabilities"]>
  (<["OS_VULNERABILITY" := "OS_vulnerabilities"]> ∅).

Definition PROJECT_FOLDER_MAP : gmap string string :=
  <["dev-ops-396910" := "devops"]>
  (<["merchants-396910" := "mmtc"]>
  (<["network-396910" := "network"]>
  (<["toorak-396910" := "tc"]>
  (<["shared-infrastructure-396910" := "si"]>
  (<["table-funding" := "tf"]>
  (<["originator-platform-396910" := "op"]> ∅)))))).

(** The configuration written in the function body. *)
Definition hardcoded : Config :=
  {| project_ids := PROJECT_IDS;
     category_folder_map := CATEGORY_FOLDER_MAP;
     project_folder_map := PROJECT_FOLDER_MAP |}.

Definition quoted (s : string) : string := dquote +:+ s +:+ dquote.

Definition FILTER : string :=
  "state=" +:+ quoted "ACTIVE" +:+ " "
  +:+ "AND NOT mute=" +:+ quoted "MUTED" +:+ " "
  +:+ "AND (severity=" +:+ quoted "CRITICAL" +:+ " OR severity=" +:+ quoted "HIGH" +:+ ") "
  +:+ "AND (category = " +:+ quoted "SOFTWARE_VULNERABILITY" +:+ ")".

Definition ORG_ID : string := "123456789012".
Definition PARENT : string := "organizations/" +:+ ORG_ID +:+ "/sources/-".

(** The ["filter"] entry of [request_scc]. *)
Definition project_filter (PROJECT_ID : string) : string :=
  FILTER +:+ " AND " +:+ "resource.project_display_name=" +:+ quoted PROJECT_ID.

(** ** The clock and [strftime("%Y%m%d_%H%M%S")] *)

Record DateTime := {
  year : Z; month : Z; day : Z;
  hour : Z; minute : Z; second : Z }.

Definition digit (n : Z) : Ascii.ascii :=
  Ascii.ascii_of_nat (Z.to_nat (48 + n mod 10)).

Definition zero_pad2 (n : Z) : string :=
  String (digit (n / 10)) (String (digit n) "").

Definition zero_pad4 (n : Z) : string :=
  String (digit (n / 1000)) (String (digit (n / 100)) (zero_pad2 n)).

Definition strftime (d : DateTime) : string :=
  zero_pad4 (year d) +:+ zero_pad2 (month d) +:+ zero_pad2 (day d) +:+ "_"
  +:+ zero_pad2 (hour d) +:+ zero_pad2 (minute d) +:+ zero_pad2 (second d).

(** The values a [datetime] can hold from year 1000 on. *)
Definition valid_datetime (d : DateTime) : Prop :=
  1000 <= year d <= 9999 /\ 1 <= month d <= 12 /\ 1 <= day d <= 31 /\
  0 <= hour d <= 23 /\ 0 <= minute d <= 59 /\ 0 <= second d <= 59.

(** ** Paths (source lines 138, 144-147) *)

Definition output_excel (PROJECT_ID CATEGORY TIMESTAMP : string) : string :=
  "/tmp/scc_" +:+ PROJECT_ID +:+ "_" +:+ CATEGORY +:+ "_" +:+ TIMESTAMP +:+ ".xlsx".

Definition gcs_excel_path (top_level_folder project_folder PROJECT_ID TIMESTAMP : string)
    : string :=
  "SCC-Reports/" +:+ top_level_folder +:+ "/" +:+ project_folder +:+ "/"
  +:+ "scc_" +:+ PROJECT_ID +:+ "_" +:+ TIMESTAMP +:+ ".xlsx".

(** ** External collaborators and the event log *)

Inductive Event : Type :=
  | EvStorageClient
  | EvBucket (bucket_name : string)
  | EvSccClient
  | EvListFindings (parent filter : string)
  | EvWriteExcel (local_path : string) (vms : list VmRow) (k8s : list K8sRow)
  | EvUpload (bucket_name gcs_path local_path : string)
  | EvRemove (local_path : string).

(** What the outside world answers. A call that can fail answers with the
    exception it raises. *)
Record Services := {
  environ_GCS_BUCKET : option string;
  utcnow : DateTime;
  storage_Client : option Exception;
  SecurityCenterClient : option Exception;
  list_findings : string -> string -> Res (list Item);
  to_excel : string -> list VmRow -> list K8sRow -> option Exception;
  upload_from_filename : string -> string -> string -> option Exception;
  os_remove : string -> option Exception }.

(** The mutable state of one invocation: the calls made so far, oldest
    first, and the [summary] list. *)
Record World := {
  events : list Event;
  summary : list string }.

Definition M (A : Type) : Type := World -> Res A * World.

Definition ret {A} (a : A) : M A := fun w => (Ok a, w).

Definition bind {A B} (m : M A) (k : A -> M B) : M B :=
  fun w =>
    match m w with
    | (Ok a, w') => k a w'
    | (Raise e, w') => (Raise e, w')
    end.

Notation "'do' x <- m ; k" := (bind m (fun x => k))
  (at level 10, x name, m at level 100, k at level 200).
Notation "'do' ' p <- m ; k" := (bind m (fun x => match x with p => k end))
  (at level 10, p pattern, m at level 100, k at level 200).
Notation "'run' m ; k" := (bind m (fun _ => k))
  (at level 10, m at level 100, k at level 200).

(** A pure computation that may raise. *)
Definition lift {A} (r : Res A) : M A := fun w => (r, w).

(** An external call: it is logged, then it returns or raises. *)
Definition call {A} (ev : Event) (answer : Res A) : M A :=
  fun w => (answer, {| events := events w ++ [ev]; summary := summary w |}).

Definition outcome (o : option Exception) : Res unit :=
  match o with
  | None => Ok tt
  | Some e => Raise e
  end.

(** [summary.append(line)] *)
Definition summary_append (line : string) : M unit :=
  fun w => (Ok tt, {| events := events w; summary := summary w ++ [line] |}).

(** [try: body except Exception as e: handler(e)] *)
Definition try_except {A} (body : M A) (handler : Exception -> M A) : M A :=
  fun w =>
    match body w with
    | (Ok a, w') => (Ok a, w')
    | (Raise e, w') => handler e w'
    end.

(** [for x in l: body(x)] *)
Fixpoint for_each {A} (l : list A) (body : A -> M unit) : M unit :=
  match l with
  | [] => ret tt
  | x :: rest => run body x; for_each rest body
  end.

(** ** The function body *)

Section Body.

Variable cfg : Config.
Variable svc : Services.

(** Truthiness of the result of [dict.get]: [None] and [""] are falsy. *)
Definition opt_truthy (o : option string) : bool :=
  match o with
  | Some s => str_truthy s
  | None => false
  end.

Definition missing_folder_message (CATEGORY PROJECT_ID : string) : string :=
  "Missing folder mapping for CATEGORY=" +:+ CATEGORY +:+ ", PROJECT_ID=" +:+ PROJECT_ID.

(** Source lines 127-133. *)
Definition resolve_folders (CATEGORY PROJECT_ID : string) : Res (string * string) :=
  let top_level_folder := category_folder_map cfg !! CATEGORY in
  let project_folder := project_folder_map cfg !! PROJECT_ID in
  if negb (opt_truthy top_level_folder) || negb (opt_truthy project_folder) then
    Raise (ValueError (missing_folder_message CATEGORY PROJECT_ID))
  else
    Ok (default "" top_level_folder, default "" project_folder).

(** One iteration of [for CATEGORY, findings in category_buckets.items()]
    (source lines 122-278). *)
Definition process_category (GCS_BUCKET TIMESTAMP PROJECT_ID : string)
    (entry : string * list Item) : M unit :=
  let '(CATEGORY, findings) := entry in
  do '(top_level_folder, project_folder) <- lift (resolve_folders CATEGORY PROJECT_ID);
  let OUTPUT_EXCEL := output_excel PROJECT_ID CATEGORY TIMESTAMP in
  let GCS_EXCEL_PATH := gcs_excel_path top_level_folder project_folder PROJECT_ID TIMESTAMP in
  let '(vms, k8s) := process_findings findings in
  run call (EvWriteExcel OUTPUT_EXCEL vms k8s) (outcome (to_excel svc OUTPUT_EXCEL vms k8s));
  run call (EvUpload GCS_BUCKET GCS_EXCEL_PATH OUTPUT_EXCEL)
        (outcome (upload_from_filename svc GCS_BUCKET GCS_EXCEL_PATH OUTPUT_EXCEL));
  call (EvRemove OUTPUT_EXCEL) (outcome (os_remove svc OUTPUT_EXCEL)).

(** The [try] block of one project (source lines 83-281). *)
Definition project_body (GCS_BUCKET TIMESTAMP PROJECT_ID : string) : M unit :=
  do all_data <- call (EvListFindings PARENT (project_filter PROJECT_ID))
                      (list_findings svc PARENT (project_filter PROJECT_ID));
  match all_data with
  | [] => summary_append (PROJECT_ID +:+ ": SUCCESS (No findings)")
  | _ :: _ =>
      run for_each (category_buckets all_data)
            (process_category GCS_BUCKET TIMESTAMP PROJECT_ID);
      summary_append (PROJECT_ID +:+ ": SUCCESS")
  end.

(** One iteration of [for PROJECT_ID in PROJECT_IDS] (source lines 81-285). *)
Definition process_project (GCS_BUCKET TIMESTAMP PROJECT_ID : string) : M unit :=
  try_except (project_body GCS_BUCKET TIMESTAMP PROJECT_ID)
    (fun e => summary_append (PROJECT_ID +:+ ": FAILED (" +:+ str_of_exception e +:+ ")")).

Definition HEADER : string := "SCC report generation completed" +:+ newline +:+ newline.

(** Everything after the environment check (source lines 36-293). *)
Definition report_body (GCS_BUCKET : string) : M (string * Z) :=
  let TIMESTAMP := strftime (utcnow svc) in
  run call EvStorageClient (outcome (storage_Client svc));
  run call (EvBucket GCS_BUCKET) (Ok tt);
  run call EvSccClient (outcome (SecurityCenterClient svc));
  run for_each (project_ids cfg) (process_project GCS_BUCKET TIMESTAMP);
  fun w => (Ok (HEADER +:+ join newline (summary w), 200), w).

Definition initial_world : World := {| events := []; summary := [] |}.

(** The entry point over a configuration: the response, or the exception
    that escapes, together with the calls that were made. *)
Definition generate_scc_report_with : Res (string * Z) * list Event :=
  if opt_truthy (environ_GCS_BUCKET svc) then
    let '(r, w) := report_body (default "" (environ_GCS_BUCKET svc)) initial_world in
    (r, events w)
  else
    (Ok ("ERROR: GCS_BUCKET environment variable must be set", 500), []).

End Body.

(** The entry point as deployed, with the hardcoded configuration. *)
Definition generate_scc_report (svc : Services) : Res (string * Z) * list Event :=
  generate_scc_report_with hardcoded svc.

(** ** Reading the two tables *)

Definition is_vm (it : Item) : Prop := type (resource it) = COMPUTE_INSTANCE.

Definition is_cluster (it : Item) : Prop := type (resource it) = CONTAINER_CLUSTER.

(** A container-cluster finding with at least one workload object. *)
Definition is_workload (it : Item) : Prop :=
  is_cluster it /\ objects (kubernetes (finding it)) <> [].

(** [r] is the VM row of [it]. *)
Definition vm_row_of (it : Item) (r : VmRow) : Prop :=
  r = vm_row (base_row it) it.

(** [r] is the Kubernetes row of [it], built from its first object. *)
Definition k8s_row_of (it : Item) (r : K8sRow) : Prop :=
  exists o rest,
    objects (kubernetes (finding it)) = o :: rest /\ r = k8s_row (base_row it) it o.

(** ** Reading the buckets, the log and the summary *)

(** What the dictionary holds after the items [seen] have been inserted. *)
Definition buckets_of (seen : list Item) (d : list (string * list Item)) : Prop :=
  NoDup (d.*1) /\
  (forall k fs, (k, fs) ∈ d ->
     fs = filter (fun it => category_or_unknown it = k) seen /\ fs <> []) /\
  (forall it, it ∈ seen -> category_or_unknown it ∈ d.*1).

(** [w'] is [w] after some more calls, all of them satisfying [P]; the
    summary is left for the caller to describe. *)
Definition extends_with (P : Event -> Prop) (w w' : World) : Prop :=
  exists evs, events w' = events w ++ evs /\ Forall P evs.

(** The three shapes of a summary line. *)
Definition summary_line (PROJECT_ID line : string) : Prop :=
  line = PROJECT_ID +:+ ": SUCCESS" \/
  line = PROJECT_ID +:+ ": SUCCESS (No findings)" \/
  exists error_text, line = PROJECT_ID +:+ ": FAILED (" +:+ error_text +:+ ")".

(** An upload made for [PROJECT_ID] sends the workbook of one of the
    [buckets] to the destination that the path convention gives for the
    category of that bucket. *)
Definition upload_for (cfg : Config) (TIMESTAMP PROJECT_ID : string)
    (buckets : list (string * list Item)) (ev : Event) : Prop :=
  match ev with
  | EvUpload _ gcs_path local_path =>
      exists CATEGORY findings category_folder project_folder,
        (CATEGORY, findings) ∈ buckets /\
        category_folder_map cfg !! CATEGORY = Some category_folder /\
        project_folder_map cfg !! PROJECT_ID = Some project_folder /\
        gcs_path = "SCC-Reports/" +:+ category_folder +:+ "/" +:+ project_folder
                   +:+ "/scc_" +:+ PROJECT_ID +:+ "_" +:+ TIMESTAMP +:+ ".xlsx" /\
        local_path = "/tmp/scc_" +:+ PROJECT_ID +:+ "_" +:+ CATEGORY +:+ "_"
                     +:+ TIMESTAMP +:+ ".xlsx"
  | _ => True
  end.

(** The same, the buckets being those of the findings fetched for
    [PROJECT_ID]. *)
Definition upload_of_project (cfg : Config) (svc : Services)
    (TIMESTAMP PROJECT_ID : string) (ev : Event) : Prop :=
  match ev with
  | EvUpload _ _ _ =>
      exists all_data,
        list_findings svc PARENT (project_filter PROJECT_ID) = Ok all_data /\
        upload_for cfg TIMESTAMP PROJECT_ID (category_buckets all_data) ev
  | _ => True
  end.

(** The same, for one of the configured projects. *)
Definition upload_path_ok (cfg : Config) (svc : Services) (TIMESTAMP : string)
    (ev : Event) : Prop :=
  match ev with
  | EvUpload _ _ _ =>
      exists PROJECT_ID,
        PROJECT_ID ∈ project_ids cfg /\
        upload_of_project cfg svc TIMESTAMP PROJECT_ID ev
  | _ => True
  end.

(** Reading a timestamp back: the number written by a string of digits. *)
Definition digit_value (c : Ascii.ascii) : Z := Z.of_nat (Ascii.nat_of_ascii c) - 48.

Fixpoint decimal_from (acc : Z) (s : string) : Z :=
  match s with
  | EmptyString => acc
  | String c rest => decimal_from (10 * acc + digit_value c) rest
  end.

Definition decimal (s : string) : Z := decimal_from 0 s.

(** The characters 0 to 9. *)
Definition is_digit (c : Ascii.ascii) : bool :=
  (48 <=? Ascii.nat_of_ascii c)%nat && (Ascii.nat_of_ascii c <=? 57)%nat.

Fixpoint all_digits (s : string) : bool :=
  match s with
  | EmptyString => true
  | String c rest => is_digit c && all_digits rest
  end.

(** [s] is the number [n] written with exactly [width] digits. *)
Definition written (width : nat) (n : Z) (s : string) : Prop :=
  String.length s = width /\ all_digits s = true /\ decimal s = n.

(** [s] is [d] written as YYYYMMDD_HHMMSS. *)
Definition timestamp_of (d : DateTime) (s : string) : Prop :=
  exists YYYY MM DD hh mm ss,
    s = YYYY +:+ MM +:+ DD +:+ "_" +:+ hh +:+ mm +:+ ss /\
    written 4 (year d) YYYY /\ written 2 (month d) MM /\ written 2 (day d) DD /\
    written 2 (hour d) hh /\ written 2 (minute d) mm /\ written 2 (second d) ss.

(** ** Sample inputs *)

(** The messages that are not set. *)
Definition unset_package : Package :=
  {| package_name := ""; package_type := ""; package_version := "";
     package_other_fields_set := false |}.

Definition unset_cve : Cve := {| cve_id_of := ""; cve_other_fields_set := false |}.

Definition sample_offending : Package :=
  {| package_name := "openssl"; package_type := "OS"; package_version := "1.0";
     package_other_fields_set := false |}.

Definition sample_fixed : Package :=
  {| package_name := "openssl-fix"; package_type := "DEB"; package_version := "1.1";
     package_other_fields_set := true |}.

Definition sample_finding (cat : string) (offending fixed : Package)
    (objs : list K8sObject) : Finding :=
  {| category := cat;
     severity := CRITICAL;
     vulnerability := {| cve := {| cve_id_of := "CVE-2024-0001";
                                   cve_other_fields_set := true |};
                         offending_package := offending;
                         fixed_package := fixed |};
     files := [ {| path := "/usr/lib/libssl.so" |}; {| path := "" |} ];
     kubernetes := {| objects := objs |};
     event_time := 1700000000 |}.

Definition sample_object : K8sObject :=
  {| ns := "default"; name := "web";
     containers := [ {| uri := "gcr.io/p/web:1" |}; {| uri := "" |} ] |}.

(** A compute-instance finding with both packages. *)
Definition sample_vm : Item :=
  {| finding := sample_finding "SOFTWARE_VULNERABILITY"
                  sample_offending sample_fixed [];
     resource := {| type := COMPUTE_INSTANCE; display_name := "vm-1" |} |}.

(** A container-cluster finding with one workload object and no offending
    package. *)
Definition sample_workload : Item :=
  {| finding := sample_finding "SOFTWARE_VULNERABILITY" unset_package sample_fixed
                  [sample_object];
     resource := {| type := CONTAINER_CLUSTER; display_name := "gke-1" |} |}.

(** A container-cluster finding without workload objects. *)
Definition sample_empty_cluster : Item :=
  {| finding := sample_finding "SOFTWARE_VULNERABILITY" unset_package sample_fixed [];
     resource := {| type := CONTAINER_CLUSTER; display_name := "gke-2" |} |}.

(** A finding whose vulnerability names no package. *)
Definition sample_bare : Item :=
  {| finding := sample_finding "SOFTWARE_VULNERABILITY" unset_package unset_package [];
     resource := {| type := COMPUTE_INSTANCE; display_name := "vm-2" |} |}.

(** A finding without category. *)
Definition sample_uncategorized : Item :=
  {| finding := sample_finding "" unset_package sample_fixed [];
     resource := {| type := COMPUTE_INSTANCE; display_name := "vm-3" |} |}.

(** A finding on a resource that is neither an instance nor a cluster. *)
Definition sample_bucket_resource : Item :=
  {| finding := sample_finding "SOFTWARE_VULNERABILITY" unset_package sample_fixed [];
     resource := {| type := "google.cloud.storage.Bucket"; display_name := "b-1" |} |}.

(** A world in which every collaborator answers: one project has a VM and a
    workload finding, one has a finding without category after a regular
    one, one has a finding without packages, the others have none. *)
Definition sample_services : Services :=
  {| environ_GCS_BUCKET := Some "reports-bucket";
     utcnow := {| year := 2024; month := 3; day := 7;
                  hour := 9; minute := 5; second := 0 |};
     storage_Client := None;
     SecurityCenterClient := None;
     list_findings := fun _ f =>
       if decide (f = project_filter "toorak-396910") then
         Ok [sample_vm; sample_workload; sample_empty_cluster]
       else if decide (f = project_filter "table-funding") then
         Ok [sample_vm; sample_uncategorized]
       else if decide (f = project_filter "network-396910") then
         Ok [sample_bare]
       else Ok [];
     to_excel := fun _ _ _ => None;
     upload_from_filename := fun _ _ _ => None;
     os_remove := fun _ => None |}.

(** The same world without the destination bucket setting. *)
Definition sample_services_unset : Services :=
  {| environ_GCS_BUCKET := None;
     utcnow := utcnow sample_services;
     storage_Client := None;
     SecurityCenterClient := None;
     list_findings := list_findings sample_services;
     to_excel := to_excel sample_services;
     upload_from_filename := upload_from_filename sample_services;
     os_remove := os_remove sample_services |}.

(** The end-to-end scenario: one project "P1" with a compute-instance
    finding and a container-cluster finding of the same category. *)
Definition scenario_config : Config :=
  {| project_ids := ["P1"];
     category_folder_map := CATEGORY_FOLDER_MAP;
     project_folder_map := <["P1" := "p1"]> ∅ |}.

Definition scenario_cluster_finding : Item :=
  {| finding :=
       {| category := "SOFTWARE_VULNERABILITY";
          severity := HIGH;
          vulnerability := {| cve := unset_cve;
                              offending_package := sample_offending;
                              fixed_package := sample_fixed |};
          files := [];
          kubernetes :=
            {| objects := [ {| ns := "default"; name := "web";
                               containers := [ {| uri := "gcr.io/p/web:1" |} ] |} ] |};
          event_time := 1700000001 |};
     resource := {| type := CONTAINER_CLUSTER; display_name := "gke-1" |} |}.

Definition scenario_services : Services :=
  {| environ_GCS_BUCKET := Some "reports-bucket";
     utcnow := utcnow sample_services;
     storage_Client := None;
     SecurityCenterClient := None;
     list_findings := fun _ _ => Ok [sample_vm; scenario_cluster_finding];
     to_excel := fun _ _ _ => None;
     upload_from_filename := fun _ _ _ => None;
     os_remove := fun _ => None |}.

(** The rows and destinations of the workbooks a run writes and uploads. *)
Definition workbook_sizes (evs : list Event) : list (nat * nat) :=
  flat_map (fun ev => match ev with
                      | EvWriteExcel _ vms k8s => [(length vms, length k8s)]
                      | _ => []
                      end) evs.

Definition upload_paths (evs : list Event) : list string :=
  flat_map (fun ev => match ev with
                      | EvUpload _ gcs_path _ => [gcs_path]
                      | _ => []
                      end) evs.

(** ** Reading rows and logs: further vocabulary *)

(** The item [it] with the objects of its Kubernetes detail replaced. *)
Definition with_objects (it : Item) (objs : list K8sObject) : Item :=
  {| finding :=
       {| category := category (finding it);
          severity := severity (finding it);
          vulnerability := vulnerability (finding it);
          files := files (finding it);
          kubernetes := {| objects := objs |};
          event_time := event_time (finding it) |};
     resource := resource it |}.

(** The item [it] with the file list of its finding replaced. *)
Definition with_files (it : Item) (fs : list File) : Item :=
  {| finding :=
       {| category := category (finding it);
          severity := severity (finding it);
          vulnerability := vulnerability (finding it);
          files := fs;
          kubernetes := kubernetes (finding it);
          event_time := event_time (finding it) |};
     resource := resource it |}.

(** Keys in the order in which they first occur. *)
Definition first_occurrences (keys : list string) : list string :=
  fold_left (fun seen k => if decide (k ∈ seen) then seen else seen ++ [k]) keys [].

(** The three calls of a category that goes through: write the workbook,
    upload it, remove the local file. *)
Definition category_events (GCS_BUCKET TIMESTAMP PROJECT_ID CATEGORY top proj : string)
    (vms : list VmRow) (k8s : list K8sRow) : list Event :=
  [ EvWriteExcel (output_excel PROJECT_ID CATEGORY TIMESTAMP) vms k8s;
    EvUpload GCS_BUCKET (gcs_excel_path top proj PROJECT_ID TIMESTAMP)
      (output_excel PROJECT_ID CATEGORY TIMESTAMP);
    EvRemove (output_excel PROJECT_ID CATEGORY TIMESTAMP) ].

(** The calls a project makes after its query: for each category reached, a
    prefix of that category's three calls. *)
Inductive project_files (cfg : Config) (GCS_BUCKET TIMESTAMP PROJECT_ID : string)
    : list Event -> Prop :=
  | project_files_nil : project_files cfg GCS_BUCKET TIMESTAMP PROJECT_ID []
  | project_files_category n CATEGORY top proj vms k8s evs :
      category_folder_map cfg !! CATEGORY = Some top ->
      project_folder_map cfg !! PROJECT_ID = Some proj ->
      project_files cfg GCS_BUCKET TIMESTAMP PROJECT_ID evs ->
      project_files cfg GCS_BUCKET TIMESTAMP PROJECT_ID
        (take n (category_events GCS_BUCKET TIMESTAMP PROJECT_ID CATEGORY top proj vms k8s)
         ++ evs).

(** The query of one project. *)
Definition query_event (PROJECT_ID : string) : Event :=
  EvListFindings PARENT (project_filter PROJECT_ID).

(** The filters of the queries in a log, oldest first. *)
Definition queries (evs : list Event) : list string :=
  flat_map (fun ev => match ev with
                      | EvListFindings _ f => [f]
                      | _ => []
                      end) evs.

(** At every place of the log where an upload stands, the call just before
    it is the writing of the file it sends; at every place where a removal
    stands, the call just before it is the upload of the file it removes. *)
Definition tidy (log : list Event) : Prop :=
  (forall l1 l2 b g p, log = l1 ++ EvUpload b g p :: l2 ->
     exists l0 vms k8s, l1 = l0 ++ [EvWriteExcel p vms k8s]) /\
  (forall l1 l2 p, log = l1 ++ EvRemove p :: l2 ->
     exists l0 b g, l1 = l0 ++ [EvUpload b g p]).

(** Neither an upload nor a removal. *)
Definition no_transfer (ev : Event) : Prop :=
  match ev with
  | EvUpload _ _ _ | EvRemove _ => False
  | _ => True
  end.

(** A world where the upload is refused. *)
Definition sample_services_upload_refused : Services :=
  {| environ_GCS_BUCKET := environ_GCS_BUCKET sample_services;
     utcnow := utcnow sample_services;
     storage_Client := None;
     SecurityCenterClient := None;
     list_findings := list_findings sample_services;
     to_excel := to_excel sample_services;
     upload_from_filename := fun _ _ _ => Some (ServiceError "403 Forbidden");
     os_remove := os_remove sample_services |}.

(** A world where the storage client cannot be constructed. *)
Definition sample_services_no_credentials : Services :=
  {| environ_GCS_BUCKET := environ_GCS_BUCKET sample_services;
     utcnow := utcnow sample_services;
     storage_Client := Some (ServiceError "DefaultCredentialsError");
     SecurityCenterClient := None;
     list_findings := list_findings sample_services;
     to_excel := to_excel sample_services;
     upload_from_filename := upload_from_filename sample_services;
     os_remove := os_remove sample_services |}.

(** A world where the findings service is down. *)
Definition sample_services_query_down : Services :=
  {| environ_GCS_BUCKET := environ_GCS_BUCKET sample_services;
     utcnow := utcnow sample_services;
     storage_Client := None;
     SecurityCenterClient := None;
     list_findings := fun _ _ => Raise (ServiceError "503 Service Unavailable");
     to_excel := to_excel sample_services;
     upload_from_filename := upload_from_filename sample_services;
     os_remove := os_remove sample_services |}.

(** The calls that set the run up. *)
Definition control_event (ev : Event) : Prop :=
  match ev with
  | EvStorageClient | EvBucket _ | EvSccClient => True
  | _ => False
  end.

(** The calls of one configured project: its query, then its file calls. *)
Definition project_segment (cfg : Config) (GCS_BUCKET TIMESTAMP : string)
    (evs : list Event) : Prop :=
  exists PROJECT_ID rest,
    PROJECT_ID ∈ project_ids cfg /\
    evs = query_event PROJECT_ID :: rest /\
    project_files cfg GCS_BUCKET TIMESTAMP PROJECT_ID rest.

(** * Properties *)

(** ** Row extraction *)

Lemma str_truthy_true (s : string) : str_truthy s = true <-> s <> "".
Proof. destruct s; simpl; split; congruence. Qed.

Lemma str_truthy_false (s : string) : str_truthy s = false <-> s = "".
Proof. destruct s; simpl; split; congruence. Qed.

(** A falsy message has all the fields the function reads empty. *)
Lemma package_falsy p :
  package_truthy p = false <->
  package_name p = "" /\ package_type p = "" /\ package_version p = "" /\
  package_other_fields_set p = false.
Proof.
  unfold package_truthy. rewrite !orb_false_iff, !str_truthy_false. tauto.
Qed.

Lemma prefer_offending_taken f offending fixed :
  package_truthy offending = true -> f offending <> "" ->
  prefer_offending f offending fixed = f offending.
Proof.
  intros Ht Hf%str_truthy_true. unfold prefer_offending. by rewrite Ht, Hf.
Qed.

Lemma prefer_offending_fallback f offending fixed :
  ~ (package_truthy offending = true /\ f offending <> "") ->
  prefer_offending f offending fixed = f fixed.
Proof.
  intros Hn. unfold prefer_offending.
  destruct (package_truthy offending); [|done].
  destruct (str_truthy (f offending)) eqn:Hf; [|done].
  apply str_truthy_true in Hf. by destruct Hn.
Qed.

(** C1. For every finding, the row's [package_name] (and likewise its
    [package_type]) is the offending package's field when the offending
    package is present and that field is non-empty, and otherwise it is the
    fixed package's field (which reads as the empty string when the fixed
    package is not set either). *)
Theorem C1_package_fields_prefer_offending (it : Item) :
  let offending := offending_package (vulnerability (finding it)) in
  let fixed := fixed_package (vulnerability (finding it)) in
  (package_truthy offending = true /\ package_name offending <> "" ->
     row_package_name (base_row it) = package_name offending) /\
  (~ (package_truthy offending = true /\ package_name offending <> "") ->
     row_package_name (base_row it) = package_name fixed) /\
  (package_truthy offending = true /\ package_type offending <> "" ->
     row_package_type (base_row it) = package_type offending) /\
  (~ (package_truthy offending = true /\ package_type offending <> "") ->
     row_package_type (base_row it) = package_type fixed).
Proof.
  intros offending fixed. cbn [base_row row_package_name row_package_type].
  fold offending fixed. repeat split.
  - intros [Ht Hf]. by apply prefer_offending_taken.
  - apply prefer_offending_fallback.
  - intros [Ht Hf]. by apply prefer_offending_taken.
  - apply prefer_offending_fallback.
Qed.

Lemma C1_package_fields_witness :
  row_package_name (base_row sample_vm) = "openssl" /\
  row_package_type (base_row sample_workload) = "DEB" /\
  row_package_name (base_row sample_bare) = "".
Proof.
  split; [|split].
  - apply (proj1 (C1_package_fields_prefer_offending sample_vm)).
    split; [reflexivity|discriminate].
  - apply (proj2 (proj2 (proj2 (C1_package_fields_prefer_offending sample_workload)))).
    intros [Ht _]. discriminate Ht.
  - apply (proj1 (proj2 (C1_package_fields_prefer_offending sample_bare))).
    intros [Ht _]. discriminate Ht.
Defined.

(** ** The two tables *)

Lemma vm_not_cluster it : is_vm it -> ~ is_cluster it.
Proof. unfold is_vm, is_cluster, COMPUTE_INSTANCE, CONTAINER_CLUSTER. congruence. Qed.

Lemma process_item_vm vms k8s it :
  is_vm it ->
  process_item (vms, k8s) it = (vms ++ [vm_row (base_row it) it], k8s).
Proof. intros Hvm. unfold process_item. by rewrite decide_True. Qed.

Lemma process_item_workload vms k8s it o rest :
  is_cluster it -> objects (kubernetes (finding it)) = o :: rest ->
  process_item (vms, k8s) it = (vms, k8s ++ [k8s_row (base_row it) it o]).
Proof.
  intros Hc Ho. unfold process_item.
  rewrite decide_False; [|by intros ?%vm_not_cluster].
  rewrite decide_True by done. by rewrite Ho.
Qed.

Lemma process_item_no_objects tables it :
  is_cluster it -> objects (kubernetes (finding it)) = [] ->
  process_item tables it = tables.
Proof.
  intros Hc Ho. destruct tables as [vms k8s]. unfold process_item.
  rewrite decide_False; [|by intros ?%vm_not_cluster].
  rewrite decide_True by done. by rewrite Ho.
Qed.

Lemma process_item_other tables it :
  ~ is_vm it -> ~ is_cluster it -> process_item tables it = tables.
Proof.
  intros Hvm Hc. destruct tables as [vms k8s]. unfold process_item.
  by rewrite !decide_False.
Qed.

(** The tables after the loop: to the rows already there, the loop adds, in
    order, the rows of the compute-instance findings to the VM table and
    those of the container-cluster findings that have a workload object to
    the Kubernetes table. *)
Lemma process_items_tables findings : forall vms k8s,
  exists vnew knew,
    fold_left process_item findings (vms, k8s) = (vms ++ vnew, k8s ++ knew) /\
    Forall2 vm_row_of (filter is_vm findings) vnew /\
    Forall2 k8s_row_of (filter is_workload findings) knew.
Proof.
  induction findings as [|it rest IH]; intros vms k8s; cbn [fold_left].
  - exists [], []. rewrite !app_nil_r. repeat split; constructor.
  - destruct (decide (is_vm it)) as [Hvm|Hvm].
    + rewrite process_item_vm by done.
      destruct (IH (vms ++ [vm_row (base_row it) it]) k8s) as (vnew & knew & -> & Hv & Hk).
      exists (vm_row (base_row it) it :: vnew), knew. rewrite <- !app_assoc.
      rewrite filter_cons_True by done.
      rewrite filter_cons_False; [|intros [Hc _]; by apply vm_not_cluster in Hvm].
      repeat split; [|done]. by constructor.
    + rewrite filter_cons_False by done.
      destruct (decide (is_workload it)) as [Hw|Hw].
      * destruct Hw as [Hc Hne].
        destruct (objects (kubernetes (finding it))) as [|o os] eqn:Ho; [done|].
        rewrite (process_item_workload _ _ _ o os) by done.
        destruct (IH vms (k8s ++ [k8s_row (base_row it) it o]))
          as (vnew & knew & -> & Hv & Hk).
        exists vnew, (k8s_row (base_row it) it o :: knew). rewrite <- !app_assoc.
        rewrite filter_cons_True; [|split; [done|by rewrite Ho]].
        repeat split; [done|]. constructor; [|done]. by exists o, os.
      * rewrite filter_cons_False by done.
        replace (process_item (vms, k8s) it) with (vms, k8s); [apply IH|].
        symmetry. destruct (decide (is_cluster it)) as [Hc|Hc].
        -- apply process_item_no_objects; [done|].
           destruct (objects (kubernetes (finding it))) eqn:Ho; [done|].
           destruct Hw. split; [done|]. by rewrite Ho.
        -- by apply process_item_other.
Qed.

(** ** Category buckets *)

Lemma setdefault_append_keys k v d :
  (setdefault_append k v d).*1 =
  if decide (k ∈ d.*1) then d.*1 else d.*1 ++ [k].
Proof.
  induction d as [|[k' vs] d IH]; cbn [setdefault_append].
  - rewrite decide_False; [done|]. apply not_elem_of_nil.
  - destruct (decide (k' = k)) as [->|Hne]; rewrite !fmap_cons; cbn [fst].
    + rewrite decide_True; [done|]. apply elem_of_cons. by left.
    + rewrite IH. destruct (decide (k ∈ d.*1)) as [Hin|Hin].
      * rewrite decide_True; [done|]. apply elem_of_cons. by right.
      * rewrite decide_False; [done|]. intros [?|?]%elem_of_cons; congruence.
Qed.

Lemma setdefault_append_elem k v d k' fs :
  NoDup (d.*1) ->
  (k', fs) ∈ setdefault_append k v d ->
  (k' <> k /\ (k', fs) ∈ d) \/
  (k' = k /\ ((exists fs0, (k, fs0) ∈ d /\ fs = fs0 ++ [v]) \/ ((k ∉ d.*1) /\ fs = [v]))).
Proof.
  induction d as [|[k1 vs] d IH]; simpl; intros Hnd Hin.
  - apply list_elem_of_singleton in Hin as [= -> ->]. right. split; [done|].
    right. split; [apply not_elem_of_nil|done].
  - apply NoDup_cons in Hnd as [Hk1 Hnd].
    destruct (decide (k1 = k)) as [->|Hne].
    + apply elem_of_cons in Hin as [[= -> ->]|Hin].
      * right. split; [done|]. left. exists vs. split; [|done]. apply elem_of_cons. by left.
      * left. split; [|apply elem_of_cons; by right].
        intros ->. apply Hk1. apply list_elem_of_fmap. by exists (k, fs).
    + apply elem_of_cons in Hin as [[= -> ->]|Hin].
      * left. split; [done|]. apply elem_of_cons. by left.
      * destruct (IH Hnd Hin) as [[Hne' Hd]|[-> [(fs0 & Hd & ->)|[Hnk ->]]]].
        -- left. split; [done|]. apply elem_of_cons. by right.
        -- right. split; [done|]. left. exists fs0. split; [|done].
           apply elem_of_cons. by right.
        -- right. split; [done|]. right. split; [|done].
           intros [?|?]%elem_of_cons; [congruence|by apply Hnk].
Qed.

Lemma buckets_of_step seen d x :
  buckets_of seen d ->
  buckets_of (seen ++ [x]) (setdefault_append (category_or_unknown x) x d).
Proof.
  intros (Hnd & Hfs & Hkeys). set (k := category_or_unknown x).
  assert (Hk : k ∈ (setdefault_append k x d).*1).
  { rewrite setdefault_append_keys. case_decide; [done|].
    apply elem_of_app. right. by apply list_elem_of_singleton. }
  split; [|split].
  - rewrite setdefault_append_keys. case_decide as Hin; [done|].
    apply NoDup_app. split; [done|]. split; [|apply NoDup_singleton].
    intros y Hy ->%list_elem_of_singleton. done.
  - intros k' fs Hin. rewrite filter_app.
    apply setdefault_append_elem in Hin as [[Hne Hd]|[-> [(fs0 & Hd & ->)|[Hnk ->]]]];
      [|..|]; try done.
    + destruct (Hfs _ _ Hd) as [-> Hnil]. split; [|done].
      rewrite (filter_cons_False _ x) by (fold k; congruence).
      by rewrite filter_nil, app_nil_r.
    + destruct (Hfs _ _ Hd) as [-> Hnil]. split.
      * by rewrite (filter_cons_True _ x), filter_nil by done.
      * intros [_ ?]%app_eq_nil. done.
    + split; [|done].
      rewrite (filter_cons_True _ x), filter_nil by done.
      destruct (filter _ seen) as [|y ys] eqn:Hf; [done|].
      assert (Hy : y ∈ filter (fun it => category_or_unknown it = k) seen)
        by (rewrite Hf; apply elem_of_cons; by left).
      apply list_elem_of_filter in Hy as [Hcat Hy]. apply Hkeys in Hy. congruence.
  - intros it [Hin|Hx]%elem_of_app.
    + rewrite setdefault_append_keys. case_decide; [by apply Hkeys|].
      apply elem_of_app. left. by apply Hkeys.
    + by apply list_elem_of_singleton in Hx as ->.
Qed.

Lemma bucket_into_spec all_data : forall seen d,
  buckets_of seen d -> buckets_of (seen ++ all_data) (bucket_into d all_data).
Proof.
  induction all_data as [|x rest IH]; intros seen d Hd; simpl.
  - by rewrite app_nil_r.
  - replace (seen ++ x :: rest) with ((seen ++ [x]) ++ rest)
      by (by rewrite <- app_assoc).
    apply IH. by apply buckets_of_step.
Qed.

Lemma category_buckets_spec all_data :
  buckets_of all_data (category_buckets all_data).
Proof.
  apply (bucket_into_spec all_data [] []). split; [constructor|].
  split; [intros k fs Hin|intros it Hin]; by apply elem_of_nil in Hin.
Qed.

(** Every fetched item sits in the bucket of its category. *)
Lemma category_buckets_elem all_data it :
  it ∈ all_data ->
  exists fs, (category_or_unknown it, fs) ∈ category_buckets all_data /\ it ∈ fs.
Proof.
  intros Hin. destruct (category_buckets_spec all_data) as (_ & Hfs & Hkeys).
  pose proof (Hkeys _ Hin) as Hk.
  apply list_elem_of_fmap in Hk as ([k fs] & Hk & Hd).
  simpl in Hk. subst k. exists fs. split; [done|].
  destruct (Hfs _ _ Hd) as [-> _]. by apply list_elem_of_filter.
Qed.


(** ** The event log only grows *)

Lemma extends_with_refl P w : extends_with P w w.
Proof. exists []. by rewrite app_nil_r. Qed.

Lemma extends_with_trans P w1 w2 w3 :
  extends_with P w1 w2 -> extends_with P w2 w3 -> extends_with P w1 w3.
Proof.
  intros (e1 & H1 & F1) (e2 & H2 & F2). exists (e1 ++ e2).
  rewrite H2, H1, <- app_assoc. split; [done|]. by apply Forall_app.
Qed.

Lemma extends_with_mono (P Q : Event -> Prop) w w' :
  (forall ev, P ev -> Q ev) -> extends_with P w w' -> extends_with Q w w'.
Proof.
  intros HPQ (evs & Hev & HP). exists evs. split; [done|].
  eapply Forall_impl; [exact HP|exact HPQ].
Qed.

Lemma upload_for_mono cfg TIMESTAMP PROJECT_ID l1 l2 ev :
  (forall entry, entry ∈ l1 -> entry ∈ l2) ->
  upload_for cfg TIMESTAMP PROJECT_ID l1 ev -> upload_for cfg TIMESTAMP PROJECT_ID l2 ev.
Proof.
  intros Hsub. destruct ev; simpl; try done.
  intros (c & fs & top & proj & Hin & H). exists c, fs, top, proj. split; [auto|done].
Qed.

Lemma upload_of_project_configured cfg svc TIMESTAMP PROJECT_ID ev :
  PROJECT_ID ∈ project_ids cfg ->
  upload_of_project cfg svc TIMESTAMP PROJECT_ID ev -> upload_path_ok cfg svc TIMESTAMP ev.
Proof. intros Hpid. destruct ev; simpl; try done. intros H. by exists PROJECT_ID. Qed.

Lemma extends_with_elem P w w' ev :
  extends_with P w w' -> ev ∈ events w -> ev ∈ events w'.
Proof. intros (evs & -> & _) Hin. apply elem_of_app. by left. Qed.

Lemma extends_with_Forall P w w' :
  extends_with P w w' -> Forall P (events w) -> Forall P (events w').
Proof. intros (evs & -> & Hevs) Hw. by apply Forall_app. Qed.

Lemma for_each_app {A} (l1 l2 : list A) (body : A -> M unit) w :
  for_each (l1 ++ l2) body w =
  bind (for_each l1 body) (fun _ => for_each l2 body) w.
Proof.
  revert w. induction l1 as [|x rest IH]; intros w; simpl; [done|].
  unfold bind in *. destruct (body x w) as [[[]|e] w']; [|done]. apply IH.
Qed.

(** ** Folder resolution *)

Lemma resolve_folders_Ok cfg CATEGORY PROJECT_ID top proj :
  resolve_folders cfg CATEGORY PROJECT_ID = Ok (top, proj) ->
  category_folder_map cfg !! CATEGORY = Some top /\
  project_folder_map cfg !! PROJECT_ID = Some proj.
Proof.
  unfold resolve_folders.
  destruct (category_folder_map cfg !! CATEGORY) as [t|],
           (project_folder_map cfg !! PROJECT_ID) as [p|]; simpl;
    repeat (match goal with |- context [str_truthy ?s] => destruct (str_truthy s) end; simpl);
    try done.
  by intros [= <- <-].
Qed.

Lemma resolve_folders_missing cfg CATEGORY PROJECT_ID :
  category_folder_map cfg !! CATEGORY = None \/
  project_folder_map cfg !! PROJECT_ID = None ->
  resolve_folders cfg CATEGORY PROJECT_ID =
  Raise (ValueError (missing_folder_message CATEGORY PROJECT_ID)).
Proof.
  unfold resolve_folders. intros [->| ->]; simpl; [done|].
  by rewrite orb_true_r.
Qed.

(** Closes [extends_with P w w'] when [w'] is [w] with explicit calls added. *)
Ltac log_grows :=
  first
    [ apply extends_with_refl
    | exists []; split; [simpl; by rewrite app_nil_r|constructor]
    | eexists; split;
      [ simpl; rewrite <- ?app_assoc; simpl; reflexivity
      | repeat constructor; done ] ].

(** ** One category, one project, the whole run *)

Section Run.

Variable cfg : Config.
Variable svc : Services.
Variables GCS_BUCKET TIMESTAMP : string.

Lemma process_category_spec PROJECT_ID entry w :
  let w' := (process_category cfg svc GCS_BUCKET TIMESTAMP PROJECT_ID entry w).2 in
  summary w' = summary w /\
  extends_with (upload_for cfg TIMESTAMP PROJECT_ID [entry]) w w'.
Proof.
  destruct entry as [CATEGORY findings].
  unfold process_category, bind, lift, call. cbv zeta.
  destruct (resolve_folders cfg CATEGORY PROJECT_ID) as [[top proj]|e] eqn:Hres;
    [|split; [done|apply extends_with_refl]].
  apply resolve_folders_Ok in Hres as [Htop Hproj].
  destruct (process_findings findings) as [vms k8s].
  assert (Hup : upload_for cfg TIMESTAMP PROJECT_ID [(CATEGORY, findings)]
            (EvUpload GCS_BUCKET (gcs_excel_path top proj PROJECT_ID TIMESTAMP)
               (output_excel PROJECT_ID CATEGORY TIMESTAMP))).
  { exists CATEGORY, findings, top, proj. split; [|done]. apply elem_of_cons. by left. }
  repeat (match goal with |- context [outcome ?o] => destruct o end; simpl);
    by split; [|log_grows].
Qed.

Lemma categories_spec PROJECT_ID l : forall w,
  let w' := (for_each l (process_category cfg svc GCS_BUCKET TIMESTAMP PROJECT_ID) w).2 in
  summary w' = summary w /\ extends_with (upload_for cfg TIMESTAMP PROJECT_ID l) w w'.
Proof.
  induction l as [|entry rest IH]; intros w; simpl.
  - split; [done|apply extends_with_refl].
  - destruct (process_category_spec PROJECT_ID entry w) as [Hs He].
    apply (extends_with_mono _ (upload_for cfg TIMESTAMP PROJECT_ID (entry :: rest)))
      in He.
    2:{ intros ev. apply upload_for_mono. intros x ->%list_elem_of_singleton.
        apply elem_of_cons. by left. }
    unfold bind.
    destruct (process_category cfg svc GCS_BUCKET TIMESTAMP PROJECT_ID entry w)
      as [[[]|e] w1]; simpl in *; [|done].
    destruct (IH w1) as [Hs' He']. split; [congruence|].
    eapply extends_with_trans; [exact He|].
    eapply extends_with_mono; [|exact He'].
    intros ev. apply upload_for_mono. intros x Hx. apply elem_of_cons. by right.
Qed.

Lemma project_body_spec PROJECT_ID w :
  let r := (project_body cfg svc GCS_BUCKET TIMESTAMP PROJECT_ID w).1 in
  let w' := (project_body cfg svc GCS_BUCKET TIMESTAMP PROJECT_ID w).2 in
  extends_with (upload_of_project cfg svc TIMESTAMP PROJECT_ID) w w' /\
  match r with
  | Ok _ => summary w' = summary w ++ [PROJECT_ID +:+ ": SUCCESS"] \/
            summary w' = summary w ++ [PROJECT_ID +:+ ": SUCCESS (No findings)"]
  | Raise _ => summary w' = summary w
  end.
Proof.
  unfold project_body, bind, call.
  destruct (list_findings svc PARENT (project_filter PROJECT_ID))
    as [[|it all_data]|e] eqn:Hlist; simpl.
  - split; [log_grows|by right].
  - set (w1 := {| events := events w ++ [_]; summary := summary w |}).
    destruct (categories_spec PROJECT_ID (category_buckets (it :: all_data)) w1)
      as [Hs He].
    apply (extends_with_mono _ (upload_of_project cfg svc TIMESTAMP PROJECT_ID)) in He.
    2:{ intros ev Hev. destruct ev; try done. by exists (it :: all_data). }
    assert (H1 : extends_with (upload_of_project cfg svc TIMESTAMP PROJECT_ID) w w1)
      by log_grows.
    destruct (for_each _ _ w1) as [[[]|e] w2]; simpl in *.
    + split; [|left; by rewrite Hs].
      eapply extends_with_trans; [exact H1|].
      eapply extends_with_trans; [exact He|log_grows].
    + split; [by eapply extends_with_trans|done].
  - split; [log_grows|done].
Qed.

Lemma process_project_spec PROJECT_ID w :
  exists line w',
    process_project cfg svc GCS_BUCKET TIMESTAMP PROJECT_ID w = (Ok tt, w') /\
    summary w' = summary w ++ [line] /\
    summary_line PROJECT_ID line /\
    extends_with (upload_of_project cfg svc TIMESTAMP PROJECT_ID) w w'.
Proof.
  destruct (project_body_spec PROJECT_ID w) as [He Hs].
  unfold process_project, try_except.
  destruct (project_body cfg svc GCS_BUCKET TIMESTAMP PROJECT_ID w) as [[[]|e] w1];
    simpl in *.
  - destruct Hs as [Hs|Hs]; eexists _, w1; (split; [done|]); (split; [done|]);
      (split; [|done]); [by left|right; by left].
  - eexists _, _. split; [done|]. simpl. rewrite Hs. split; [done|].
    split; [right; right; by eexists|].
    eapply extends_with_trans; [exact He|log_grows].
Qed.

Lemma projects_spec l : forall w,
  (forall p, p ∈ l -> p ∈ project_ids cfg) ->
  exists lines w',
    for_each l (process_project cfg svc GCS_BUCKET TIMESTAMP) w = (Ok tt, w') /\
    summary w' = summary w ++ lines /\
    Forall2 summary_line l lines /\
    extends_with (upload_path_ok cfg svc TIMESTAMP) w w'.
Proof.
  induction l as [|p rest IH]; intros w Hl; simpl.
  - exists [], w. rewrite app_nil_r. repeat split; [constructor|apply extends_with_refl].
  - destruct (process_project_spec p w) as (line & w1 & Hrun & Hs & Hline & He).
    apply (extends_with_mono _ (upload_path_ok cfg svc TIMESTAMP)) in He.
    2:{ intros ev. apply upload_of_project_configured, Hl, elem_of_cons. by left. }
    destruct (IH w1) as (lines & w2 & Hrun' & Hs' & Hlines & He').
    { intros q Hq. apply Hl, elem_of_cons. by right. }
    exists (line :: lines), w2. unfold bind. rewrite Hrun, Hrun'.
    split; [done|]. split; [by rewrite Hs', Hs, <- app_assoc|].
    split; [by constructor|by eapply extends_with_trans].
Qed.

End Run.

(** ** Timestamps *)

Lemma digit_value_digit n : digit_value (digit n) = n mod 10.
Proof.
  unfold digit_value, digit.
  pose proof (Z.mod_pos_bound n 10 ltac:(lia)).
  rewrite Ascii.nat_ascii_embedding by lia. lia.
Qed.

Lemma decimal_zero_pad2 n : 0 <= n < 100 -> decimal (zero_pad2 n) = n.
Proof.
  intros Hn. unfold decimal, zero_pad2. simpl. rewrite !digit_value_digit.
  Z.div_mod_to_equations. lia.
Qed.

Lemma decimal_zero_pad4 n : 0 <= n < 10000 -> decimal (zero_pad4 n) = n.
Proof.
  intros Hn. unfold decimal, zero_pad4, zero_pad2. simpl. rewrite !digit_value_digit.
  Z.div_mod_to_equations. lia.
Qed.

Lemma is_digit_digit n : is_digit (digit n) = true.
Proof.
  unfold is_digit, digit.
  pose proof (Z.mod_pos_bound n 10 ltac:(lia)).
  rewrite Ascii.nat_ascii_embedding by lia.
  apply andb_true_iff. split; apply Nat.leb_le; lia.
Qed.

Lemma written_zero_pad2 n : 0 <= n < 100 -> written 2 n (zero_pad2 n).
Proof.
  intros Hn. split; [done|]. split; [|by apply decimal_zero_pad2].
  unfold zero_pad2. cbn [all_digits]. by rewrite !is_digit_digit.
Qed.

Lemma written_zero_pad4 n : 0 <= n < 10000 -> written 4 n (zero_pad4 n).
Proof.
  intros Hn. split; [done|]. split; [|by apply decimal_zero_pad4].
  unfold zero_pad4, zero_pad2. cbn [all_digits]. by rewrite !is_digit_digit.
Qed.

Lemma strftime_format d : valid_datetime d -> timestamp_of d (strftime d).
Proof.
  intros (Hy & Hm & Hd & Hh & Hmi & Hs).
  exists (zero_pad4 (year d)), (zero_pad2 (month d)), (zero_pad2 (day d)),
         (zero_pad2 (hour d)), (zero_pad2 (minute d)), (zero_pad2 (second d)).
  split; [done|].
  repeat split; first [apply written_zero_pad4; lia | apply written_zero_pad2; lia].
Qed.

(** ** The entry point *)

(** C4. A project whose query returns no finding gets the line
    "<project-id>: SUCCESS (No findings)"; the only call made for it is the
    query itself: nothing is written and nothing is uploaded. *)
Theorem C4_no_findings cfg svc GCS_BUCKET TIMESTAMP PROJECT_ID w :
  list_findings svc PARENT (project_filter PROJECT_ID) = Ok [] ->
  process_project cfg svc GCS_BUCKET TIMESTAMP PROJECT_ID w =
  (Ok tt,
   {| events := events w ++ [EvListFindings PARENT (project_filter PROJECT_ID)];
      summary := summary w ++ [PROJECT_ID +:+ ": SUCCESS (No findings)"] |}).
Proof.
  intros Hnone. unfold process_project, try_except, project_body, bind, call.
  by rewrite Hnone.
Qed.

Lemma C4_no_findings_witness :
  list_findings sample_services PARENT (project_filter "dev-ops-396910") = Ok [] /\
  process_project hardcoded sample_services "reports-bucket" "20240307_090500"
    "dev-ops-396910" initial_world =
  (Ok tt,
   {| events := [EvListFindings PARENT (project_filter "dev-ops-396910")];
      summary := ["dev-ops-396910: SUCCESS (No findings)"] |}).
Proof.
  split; [reflexivity|].
  apply (C4_no_findings hardcoded sample_services "reports-bucket" "20240307_090500"
           "dev-ops-396910" initial_world).
  reflexivity.
Defined.

(** C5. Without the GCS_BUCKET setting (unset, or set to the empty string)
    the entry point answers status 500 with an error message, and no call
    to any service has been made. *)
Theorem C5_missing_bucket cfg svc :
  environ_GCS_BUCKET svc = None \/ environ_GCS_BUCKET svc = Some "" ->
  generate_scc_report_with cfg svc =
  (Ok ("ERROR: GCS_BUCKET environment variable must be set", 500), []).
Proof. unfold generate_scc_report_with. by intros [-> | ->]. Qed.

Lemma C5_missing_bucket_witness :
  (environ_GCS_BUCKET sample_services_unset = None \/
   environ_GCS_BUCKET sample_services_unset = Some "") /\
  generate_scc_report sample_services_unset =
  (Ok ("ERROR: GCS_BUCKET environment variable must be set", 500), []).
Proof.
  split; [left; reflexivity|].
  apply (C5_missing_bucket hardcoded sample_services_unset). left. reflexivity.
Defined.

Lemma report_body_spec cfg svc GCS_BUCKET :
  storage_Client svc = None -> SecurityCenterClient svc = None ->
  exists lines w,
    report_body cfg svc GCS_BUCKET initial_world =
      (Ok (HEADER +:+ join newline lines, 200), w) /\
    Forall2 summary_line (project_ids cfg) lines /\
    Forall (upload_path_ok cfg svc (strftime (utcnow svc))) (events w).
Proof.
  intros Hst Hscc. unfold report_body, bind, call. rewrite Hst, Hscc. simpl.
  set (w0 := {| events := _; summary := _ |}).
  destruct (projects_spec cfg svc GCS_BUCKET (strftime (utcnow svc))
              (project_ids cfg) w0) as (lines & w & Hrun & Hs & Hlines & He); [done|].
  exists lines, w. rewrite Hrun. simpl in Hs. rewrite Hs.
  split; [done|]. split; [done|].
  eapply extends_with_Forall; [exact He|]. repeat constructor.
Qed.

(** C6. Once the clients exist and the loop over the projects has started,
    the entry point answers status 200; the body is the header followed by
    one line per project, in the order of the project list, each of the
    form "<id>: SUCCESS", "<id>: SUCCESS (No findings)" or
    "<id>: FAILED (<error text>)". *)
Theorem C6_status_200_one_line_per_project cfg svc :
  opt_truthy (environ_GCS_BUCKET svc) = true ->
  storage_Client svc = None -> SecurityCenterClient svc = None ->
  exists lines,
    (generate_scc_report_with cfg svc).1 =
      Ok ("SCC report generation completed" +:+ newline +:+ newline
          +:+ join newline lines, 200) /\
    Forall2 summary_line (project_ids cfg) lines.
Proof.
  intros Henv Hst Hscc. unfold generate_scc_report_with. rewrite Henv.
  destruct (report_body_spec cfg svc (default "" (environ_GCS_BUCKET svc)) Hst Hscc)
    as (lines & w & Hrun & Hlines & _).
  exists lines. rewrite Hrun. by split.
Qed.

Lemma C6_status_200_witness :
  opt_truthy (environ_GCS_BUCKET sample_services) = true /\
  storage_Client sample_services = None /\
  SecurityCenterClient sample_services = None /\
  exists lines,
    (generate_scc_report sample_services).1 =
      Ok ("SCC report generation completed" +:+ newline +:+ newline
          +:+ join newline lines, 200) /\
    Forall2 summary_line PROJECT_IDS lines.
Proof.
  split; [reflexivity|]. split; [reflexivity|]. split; [reflexivity|].
  apply (C6_status_200_one_line_per_project hardcoded sample_services); reflexivity.
Defined.

Lemma report_body_uploads cfg svc GCS_BUCKET :
  Forall (upload_path_ok cfg svc (strftime (utcnow svc)))
    (events (report_body cfg svc GCS_BUCKET initial_world).2).
Proof.
  destruct (storage_Client svc) as [e|] eqn:Hst;
    [unfold report_body, bind, call; rewrite Hst; simpl; repeat constructor|].
  destruct (SecurityCenterClient svc) as [e|] eqn:Hscc;
    [unfold report_body, bind, call; rewrite Hst, Hscc; simpl; repeat constructor|].
  destruct (report_body_spec cfg svc GCS_BUCKET Hst Hscc) as (lines & w & Hrun & _ & Hev).
  by rewrite Hrun.
Qed.

Lemma process_category_uploads cfg svc GCS_BUCKET TIMESTAMP PROJECT_ID CATEGORY findings w :
  exists evs,
    events (process_category cfg svc GCS_BUCKET TIMESTAMP PROJECT_ID
              (CATEGORY, findings) w).2 = events w ++ evs /\
    (forall bucket_name gcs_path local_path,
       EvUpload bucket_name gcs_path local_path ∈ evs ->
       exists category_folder project_folder,
         category_folder_map cfg !! CATEGORY = Some category_folder /\
         project_folder_map cfg !! PROJECT_ID = Some project_folder /\
         bucket_name = GCS_BUCKET /\
         gcs_path = gcs_excel_path category_folder project_folder PROJECT_ID TIMESTAMP /\
         local_path = output_excel PROJECT_ID CATEGORY TIMESTAMP) /\
    ((process_category cfg svc GCS_BUCKET TIMESTAMP PROJECT_ID
        (CATEGORY, findings) w).1 = Ok tt ->
     exists gcs_path local_path, EvUpload GCS_BUCKET gcs_path local_path ∈ evs).
Proof.
  unfold process_category, bind, lift, call. cbv zeta.
  destruct (resolve_folders cfg CATEGORY PROJECT_ID) as [[top proj]|e] eqn:Hres.
  2:{ exists []. rewrite app_nil_r. split; [done|]. split; [|done].
      by intros ??? ?%elem_of_nil. }
  apply resolve_folders_Ok in Hres as [Htop Hproj].
  destruct (process_findings findings) as [vms k8s].
  set (W := EvWriteExcel (output_excel PROJECT_ID CATEGORY TIMESTAMP) vms k8s).
  set (U := EvUpload GCS_BUCKET (gcs_excel_path top proj PROJECT_ID TIMESTAMP)
              (output_excel PROJECT_ID CATEGORY TIMESTAMP)).
  set (R := EvRemove (output_excel PROJECT_ID CATEGORY TIMESTAMP)).
  assert (Hall : forall evs bucket_name gcs_path local_path,
            evs ⊆ [W; U; R] -> EvUpload bucket_name gcs_path local_path ∈ evs ->
            exists category_folder project_folder,
              category_folder_map cfg !! CATEGORY = Some category_folder /\
              project_folder_map cfg !! PROJECT_ID = Some project_folder /\
              bucket_name = GCS_BUCKET /\
              gcs_path = gcs_excel_path category_folder project_folder PROJECT_ID
                           TIMESTAMP /\
              local_path = output_excel PROJECT_ID CATEGORY TIMESTAMP).
  { intros evs b g p Hsub Hin. apply Hsub in Hin.
    apply elem_of_cons in Hin as [[=]|Hin].
    apply elem_of_cons in Hin as [[= -> -> ->]|Hin]; [by exists top, proj|].
    by apply list_elem_of_singleton in Hin. }
  destruct (to_excel svc (output_excel PROJECT_ID CATEGORY TIMESTAMP) vms k8s); simpl.
  { exists [W]. split; [done|]. split; [|done]. intros b g p. apply Hall.
    intros x Hx. apply elem_of_cons. left. by apply list_elem_of_singleton in Hx. }
  destruct (upload_from_filename svc GCS_BUCKET
              (gcs_excel_path top proj PROJECT_ID TIMESTAMP)
              (output_excel PROJECT_ID CATEGORY TIMESTAMP)); simpl.
  { exists [W; U]. split; [by rewrite <- app_assoc|]. split; [|done].
    intros b g p. apply Hall. intros x Hx.
    apply elem_of_cons in Hx as [->|Hx]; [apply elem_of_cons; by left|].
    apply list_elem_of_singleton in Hx as ->.
    apply elem_of_cons. right. apply elem_of_cons. by left. }
  exists [W; U; R]. split; [by rewrite <- !app_assoc|]. split.
  - intros b g p. by apply Hall.
  - intros _. eexists _, _. apply elem_of_cons. right. apply elem_of_cons. by left.
Qed.

(** C7. Every workbook that is uploaded goes to the destination
    SCC-Reports/<category-folder>/<project-folder>/scc_<project-id>_<timestamp>.xlsx
    where the two folders are the entries of the static maps for the very
    category and project being processed, and <timestamp> is the one start
    time of the run written as YYYYMMDD_HHMMSS: this holds for the upload of
    each category processed (which is present whenever the category went
    through), and every upload in the log of a run is that of a category
    bucket of the findings fetched for a configured project. *)
Theorem C7_upload_path_convention cfg svc :
  valid_datetime (utcnow svc) ->
  let TIMESTAMP := strftime (utcnow svc) in
  timestamp_of (utcnow svc) TIMESTAMP /\
  (forall GCS_BUCKET PROJECT_ID CATEGORY findings w,
     exists evs,
       events (process_category cfg svc GCS_BUCKET TIMESTAMP PROJECT_ID
                 (CATEGORY, findings) w).2 = events w ++ evs /\
       (forall bucket_name gcs_path local_path,
          EvUpload bucket_name gcs_path local_path ∈ evs ->
          exists category_folder project_folder,
            category_folder_map cfg !! CATEGORY = Some category_folder /\
            project_folder_map cfg !! PROJECT_ID = Some project_folder /\
            bucket_name = GCS_BUCKET /\
            gcs_path = "SCC-Reports/" +:+ category_folder +:+ "/" +:+ project_folder
                       +:+ "/scc_" +:+ PROJECT_ID +:+ "_" +:+ TIMESTAMP +:+ ".xlsx" /\
            local_path = "/tmp/scc_" +:+ PROJECT_ID +:+ "_" +:+ CATEGORY +:+ "_"
                         +:+ TIMESTAMP +:+ ".xlsx") /\
       ((process_category cfg svc GCS_BUCKET TIMESTAMP PROJECT_ID
           (CATEGORY, findings) w).1 = Ok tt ->
        exists gcs_path local_path, EvUpload GCS_BUCKET gcs_path local_path ∈ evs)) /\
  (forall bucket_name gcs_path local_path,
     EvUpload bucket_name gcs_path local_path ∈ (generate_scc_report_with cfg svc).2 ->
     exists PROJECT_ID all_data CATEGORY findings category_folder project_folder,
       PROJECT_ID ∈ project_ids cfg /\
       list_findings svc PARENT (project_filter PROJECT_ID) = Ok all_data /\
       (CATEGORY, findings) ∈ category_buckets all_data /\
       category_folder_map cfg !! CATEGORY = Some category_folder /\
       project_folder_map cfg !! PROJECT_ID = Some project_folder /\
       gcs_path = "SCC-Reports/" +:+ category_folder +:+ "/" +:+ project_folder
                  +:+ "/scc_" +:+ PROJECT_ID +:+ "_" +:+ TIMESTAMP +:+ ".xlsx" /\
       local_path = "/tmp/scc_" +:+ PROJECT_ID +:+ "_" +:+ CATEGORY +:+ "_"
                    +:+ TIMESTAMP +:+ ".xlsx").
Proof.
  intros Hvalid TIMESTAMP. split; [by apply strftime_format|]. split.
  - intros GCS_BUCKET PROJECT_ID CATEGORY findings w.
    apply process_category_uploads.
  - intros bucket_name gcs_path local_path. unfold generate_scc_report_with.
    destruct (opt_truthy (environ_GCS_BUCKET svc)); [|by intros ?%elem_of_nil].
    pose proof (report_body_uploads cfg svc (default "" (environ_GCS_BUCKET svc))) as Hall.
    destruct (report_body _ _ _ _) as [r w]. simpl in *. intros Hin.
    rewrite Forall_forall in Hall.
    destruct (Hall _ Hin) as (pid & Hpid & all_data & Hlist & c & fs & top & proj & H).
    by exists pid, all_data, c, fs, top, proj.
Qed.

Lemma C7_upload_path_witness :
  valid_datetime (utcnow sample_services) /\
  exists PROJECT_ID all_data CATEGORY findings category_folder project_folder,
    PROJECT_ID ∈ PROJECT_IDS /\
    list_findings sample_services PARENT (project_filter PROJECT_ID) = Ok all_data /\
    (CATEGORY, findings) ∈ category_buckets all_data /\
    CATEGORY_FOLDER_MAP !! CATEGORY = Some category_folder /\
    PROJECT_FOLDER_MAP !! PROJECT_ID = Some project_folder /\
    "SCC-Reports/software_vulnerabilities/tc/scc_toorak-396910_20240307_090500.xlsx" =
      "SCC-Reports/" +:+ category_folder +:+ "/" +:+ project_folder
      +:+ "/scc_" +:+ PROJECT_ID +:+ "_" +:+ strftime (utcnow sample_services) +:+ ".xlsx" /\
    "/tmp/scc_toorak-396910_SOFTWARE_VULNERABILITY_20240307_090500.xlsx" =
      "/tmp/scc_" +:+ PROJECT_ID +:+ "_" +:+ CATEGORY +:+ "_"
      +:+ strftime (utcnow sample_services) +:+ ".xlsx".
Proof.
  assert (Hvalid : valid_datetime (utcnow sample_services))
    by (unfold valid_datetime; simpl; lia).
  split; [exact Hvalid|].
  apply (proj2 (proj2 (C7_upload_path_convention hardcoded sample_services Hvalid))
           "reports-bucket"
           "SCC-Reports/software_vulnerabilities/tc/scc_toorak-396910_20240307_090500.xlsx"
           "/tmp/scc_toorak-396910_SOFTWARE_VULNERABILITY_20240307_090500.xlsx").
  apply list_elem_of_In. vm_compute.
  do 5 right. left. reflexivity.
Defined.

(** ** The successful path *)

Lemma resolve_folders_found cfg CATEGORY PROJECT_ID top proj :
  category_folder_map cfg !! CATEGORY = Some top -> top <> "" ->
  project_folder_map cfg !! PROJECT_ID = Some proj -> proj <> "" ->
  resolve_folders cfg CATEGORY PROJECT_ID = Ok (top, proj).
Proof.
  intros Ht Htne Hp Hpne. apply str_truthy_true in Htne, Hpne.
  unfold resolve_folders. rewrite Ht, Hp. simpl. by rewrite Htne, Hpne.
Qed.

Section Success.

Variable cfg : Config.
Variable svc : Services.
Variables GCS_BUCKET TIMESTAMP PROJECT_ID proj : string.

Hypothesis project_folder : project_folder_map cfg !! PROJECT_ID = Some proj.
Hypothesis project_folder_nonempty : proj <> "".
Hypothesis to_excel_returns : forall p vms k8s, to_excel svc p vms k8s = None.
Hypothesis upload_returns : forall b g p, upload_from_filename svc b g p = None.
Hypothesis remove_returns : forall p, os_remove svc p = None.

Lemma categories_success l : forall w,
  (forall entry, entry ∈ l ->
     exists top, category_folder_map cfg !! entry.1 = Some top /\ top <> "") ->
  exists chunks,
    for_each l (process_category cfg svc GCS_BUCKET TIMESTAMP PROJECT_ID) w =
      (Ok tt, {| events := events w ++ concat chunks; summary := summary w |}) /\
    Forall2 (fun entry chunk =>
               exists top vms k8s,
                 category_folder_map cfg !! entry.1 = Some top /\
                 process_findings entry.2 = (vms, k8s) /\
                 chunk = category_events GCS_BUCKET TIMESTAMP PROJECT_ID entry.1
                           top proj vms k8s) l chunks.
Proof.
  induction l as [|[c fs] rest IH]; intros w Hl; cbn [for_each].
  - exists []. split; [|constructor]. unfold ret. simpl. rewrite app_nil_r. by destruct w.
  - destruct (Hl (c, fs)) as (top & Htop & Htne); [apply elem_of_cons; by left|].
    simpl in Htop.
    destruct (process_findings fs) as [vms k8s] eqn:Hrun.
    set (chunk := category_events GCS_BUCKET TIMESTAMP PROJECT_ID c top proj vms k8s).
    set (w1 := {| events := events w ++ chunk; summary := summary w |}).
    destruct (IH w1) as (chunks & Hrest & Hchunks).
    { intros entry Hin. apply Hl, elem_of_cons. by right. }
    exists (chunk :: chunks). split.
    + unfold bind.
      replace (process_category cfg svc GCS_BUCKET TIMESTAMP PROJECT_ID (c, fs) w)
        with (@Ok unit tt, w1).
      { rewrite Hrest. simpl. by rewrite <- app_assoc. }
      unfold process_category, bind, lift, call.
      rewrite (resolve_folders_found cfg c PROJECT_ID top proj) by done.
      rewrite Hrun. cbv zeta.
      rewrite to_excel_returns, upload_returns, remove_returns. simpl.
      unfold w1, chunk, category_events. by rewrite <- !app_assoc.
    + constructor; [|done]. by exists top, vms, k8s.
Qed.

(** With the folders there and the collaborators answering, a project that
    fetched findings goes through all its categories. *)
Lemma project_success w all_data :
  list_findings svc PARENT (project_filter PROJECT_ID) = Ok all_data ->
  all_data <> [] ->
  (forall it, it ∈ all_data ->
     exists top, category_folder_map cfg !! category_or_unknown it = Some top /\
                 top <> "") ->
  exists chunks,
    process_project cfg svc GCS_BUCKET TIMESTAMP PROJECT_ID w =
      (Ok tt,
       {| events := events w ++ EvListFindings PARENT (project_filter PROJECT_ID)
                               :: concat chunks;
          summary := summary w ++ [PROJECT_ID +:+ ": SUCCESS"] |}) /\
    Forall2 (fun entry chunk =>
               exists top vms k8s,
                 category_folder_map cfg !! entry.1 = Some top /\
                 process_findings entry.2 = (vms, k8s) /\
                 chunk = category_events GCS_BUCKET TIMESTAMP PROJECT_ID entry.1
                           top proj vms k8s)
      (category_buckets all_data) chunks.
Proof.
  intros Hlist Hne Hall.
  destruct (categories_success (category_buckets all_data)
              {| events := events w ++ [EvListFindings PARENT (project_filter PROJECT_ID)];
                 summary := summary w |}) as (chunks & Hrun & Hchunks).
  { intros [k fs] Hin. destruct (category_buckets_spec all_data) as (_ & Hfs & _).
    destruct (Hfs k fs Hin) as [Heq Hnil]. simpl.
    destruct fs as [|it fs']; [done|].
    assert (Hit : it ∈ filter (fun it => category_or_unknown it = k) all_data)
      by (rewrite <- Heq; apply elem_of_cons; by left).
    apply list_elem_of_filter in Hit as [<- Hit]. by apply Hall. }
  exists chunks. split; [|exact Hchunks].
  unfold process_project, try_except, project_body, bind at 1, call. rewrite Hlist.
  destruct all_data as [|it rest]; [done|].
  unfold bind. rewrite Hrun. unfold summary_append. simpl.
  by rewrite <- app_assoc.
Qed.

End Success.

(** ** Failures inside a project *)

Section Failures.

Variable cfg : Config.
Variable svc : Services.
Variables GCS_BUCKET TIMESTAMP PROJECT_ID : string.

Lemma process_category_Ok CATEGORY findings w w' :
  process_category cfg svc GCS_BUCKET TIMESTAMP PROJECT_ID (CATEGORY, findings) w
    = (Ok tt, w') ->
  exists top proj vms k8s,
    category_folder_map cfg !! CATEGORY = Some top /\
    project_folder_map cfg !! PROJECT_ID = Some proj /\
    process_findings findings = (vms, k8s) /\
    w' = {| events := events w ++
              [ EvWriteExcel (output_excel PROJECT_ID CATEGORY TIMESTAMP) vms k8s;
                EvUpload GCS_BUCKET (gcs_excel_path top proj PROJECT_ID TIMESTAMP)
                  (output_excel PROJECT_ID CATEGORY TIMESTAMP);
                EvRemove (output_excel PROJECT_ID CATEGORY TIMESTAMP) ];
            summary := summary w |}.
Proof.
  unfold process_category, bind, lift, call. cbv zeta.
  destruct (resolve_folders cfg CATEGORY PROJECT_ID) as [[top proj]|e] eqn:Hres; [|done].
  apply resolve_folders_Ok in Hres as [Htop Hproj].
  destruct (process_findings findings) as [vms k8s].
  repeat (match goal with |- context [outcome ?o] => destruct o end; simpl); try done.
  intros [= <-]. exists top, proj, vms, k8s. repeat split; try done.
  by rewrite <- !app_assoc.
Qed.

(** The categories that went through have their workbook uploaded. *)
Lemma categories_uploaded l : forall w w',
  for_each l (process_category cfg svc GCS_BUCKET TIMESTAMP PROJECT_ID) w = (Ok tt, w') ->
  forall CATEGORY findings, (CATEGORY, findings) ∈ l ->
  exists top proj,
    category_folder_map cfg !! CATEGORY = Some top /\
    project_folder_map cfg !! PROJECT_ID = Some proj /\
    EvUpload GCS_BUCKET (gcs_excel_path top proj PROJECT_ID TIMESTAMP)
      (output_excel PROJECT_ID CATEGORY TIMESTAMP) ∈ events w'.
Proof.
  induction l as [|[c fs] rest IH]; intros w w' Hrun CATEGORY findings Hin.
  { by apply elem_of_nil in Hin. }
  cbn [for_each] in Hrun. unfold bind in Hrun.
  destruct (process_category cfg svc GCS_BUCKET TIMESTAMP PROJECT_ID (c, fs) w)
    as [[[]|e] w1] eqn:Hx; [|done].
  apply elem_of_cons in Hin as [[= -> ->]|Hin]; [|by eapply IH].
  apply process_category_Ok in Hx as (top & proj & vms & k8s & Htop & Hproj & _ & ->).
  exists top, proj. split; [done|]. split; [done|].
  pose proof (categories_spec cfg svc GCS_BUCKET TIMESTAMP PROJECT_ID rest
                {| events := events w ++ [EvWriteExcel (output_excel PROJECT_ID c TIMESTAMP) vms k8s;
                     EvUpload GCS_BUCKET (gcs_excel_path top proj PROJECT_ID TIMESTAMP)
                       (output_excel PROJECT_ID c TIMESTAMP);
                     EvRemove (output_excel PROJECT_ID c TIMESTAMP)];
                   summary := summary w |}) as [_ Hext].
  rewrite Hrun in Hext. simpl in Hext.
  eapply extends_with_elem; [exact Hext|]. simpl.
  apply elem_of_app. right. apply elem_of_cons. right. apply elem_of_cons. by left.
Qed.

(** C3. When the category of a bucket has no entry in the category folder
    map, or the project has none in the project folder map, the project
    stops at that bucket: its summary line is
    "<project-id>: FAILED (<error text>)", no call is made after the ones of
    the earlier buckets, and the uploads of those earlier buckets are still
    in the log. *)
Theorem C3_missing_folder_fails_project w all_data pre CATEGORY findings post w1 :
  list_findings svc PARENT (project_filter PROJECT_ID) = Ok all_data ->
  category_buckets all_data = pre ++ (CATEGORY, findings) :: post ->
  category_folder_map cfg !! CATEGORY = None \/
  project_folder_map cfg !! PROJECT_ID = None ->
  for_each pre (process_category cfg svc GCS_BUCKET TIMESTAMP PROJECT_ID)
    {| events := events w ++ [EvListFindings PARENT (project_filter PROJECT_ID)];
       summary := summary w |} = (Ok tt, w1) ->
  process_project cfg svc GCS_BUCKET TIMESTAMP PROJECT_ID w =
    (Ok tt,
     {| events := events w1;
        summary := summary w ++
          [PROJECT_ID +:+ ": FAILED (" +:+ missing_folder_message CATEGORY PROJECT_ID
           +:+ ")"] |}) /\
  forall c fs, (c, fs) ∈ pre ->
    exists top proj,
      category_folder_map cfg !! c = Some top /\
      project_folder_map cfg !! PROJECT_ID = Some proj /\
      EvUpload GCS_BUCKET (gcs_excel_path top proj PROJECT_ID TIMESTAMP)
        (output_excel PROJECT_ID c TIMESTAMP) ∈ events w1.
Proof.
  intros Hlist Hbuckets Hmiss Hpre. split; [|by eapply categories_uploaded].
  pose proof (categories_spec cfg svc GCS_BUCKET TIMESTAMP PROJECT_ID pre
                {| events := events w ++ [EvListFindings PARENT (project_filter PROJECT_ID)];
                   summary := summary w |}) as [Hsum _].
  rewrite Hpre in Hsum. simpl in Hsum.
  unfold process_project, try_except, project_body, bind at 1, call. rewrite Hlist.
  destruct all_data as [|it rest].
  { exfalso. cbv in Hbuckets. by destruct pre. }
  rewrite Hbuckets.
  unfold bind at 1. rewrite for_each_app. unfold bind at 1. rewrite Hpre.
  cbn [for_each]. unfold bind at 1.
  unfold process_category at 1, bind at 1, lift.
  rewrite (resolve_folders_missing _ _ _ Hmiss).
  unfold summary_append. cbn [events summary str_of_exception]. by rewrite Hsum.
Qed.

Lemma for_each_raises {A} (l : list A) (body : A -> M unit) x :
  x ∈ l -> (forall w, exists e w', body x w = (Raise e, w')) ->
  forall w, exists e w', for_each l body w = (Raise e, w').
Proof.
  intros Hin Hx. induction l as [|y rest IH]; [by apply elem_of_nil in Hin|].
  intros w. simpl. unfold bind.
  destruct (body y w) as [[[]|e] w1] eqn:Hy; [|eauto].
  apply elem_of_cons in Hin as [->|Hin]; [|by apply IH].
  destruct (Hx w) as (e & w' & He). congruence.
Qed.

End Failures.

Lemma C3_missing_folder_witness :
  list_findings sample_services PARENT (project_filter "table-funding") =
    Ok [sample_vm; sample_uncategorized] /\
  category_buckets [sample_vm; sample_uncategorized] =
    [("SOFTWARE_VULNERABILITY", [sample_vm])] ++ [("UNKNOWN", [sample_uncategorized])] /\
  CATEGORY_FOLDER_MAP !! "UNKNOWN" = None /\
  summary (process_project hardcoded sample_services "reports-bucket" "20240307_090500"
             "table-funding" initial_world).2 =
    ["table-funding: FAILED (Missing folder mapping for CATEGORY=UNKNOWN, "
     +:+ "PROJECT_ID=table-funding)"] /\
  EvUpload "reports-bucket"
    "SCC-Reports/software_vulnerabilities/tf/scc_table-funding_20240307_090500.xlsx"
    "/tmp/scc_table-funding_SOFTWARE_VULNERABILITY_20240307_090500.xlsx"
  ∈ events (process_project hardcoded sample_services "reports-bucket" "20240307_090500"
              "table-funding" initial_world).2.
Proof.
  split; [reflexivity|]. split; [reflexivity|]. split; [reflexivity|].
  destruct (C3_missing_folder_fails_project hardcoded sample_services
              "reports-bucket" "20240307_090500" "table-funding" initial_world
              [sample_vm; sample_uncategorized]
              [("SOFTWARE_VULNERABILITY", [sample_vm])] "UNKNOWN" [sample_uncategorized] []
              (for_each [("SOFTWARE_VULNERABILITY", [sample_vm])]
                 (process_category hardcoded sample_services "reports-bucket"
                    "20240307_090500" "table-funding")
                 {| events := events initial_world ++
                      [EvListFindings PARENT (project_filter "table-funding")];
                    summary := summary initial_world |}).2
              eq_refl eq_refl (or_introl eq_refl) eq_refl) as [Hrun Huploads].
  rewrite Hrun. split; [reflexivity|].
  destruct (Huploads "SOFTWARE_VULNERABILITY" [sample_vm]) as (top & proj & Ht & Hp & Hin).
  { apply elem_of_cons. by left. }
  injection Ht as <-. injection Hp as <-. exact Hin.
Defined.

(** ** Findings without packages *)

Lemma base_row_without_packages it :
  package_truthy (offending_package (vulnerability (finding it))) = false ->
  package_truthy (fixed_package (vulnerability (finding it))) = false ->
  row_package_name (base_row it) = "" /\
  row_package_type (base_row it) = "" /\
  row_offending_package_version (base_row it) = None /\
  row_fixed_package_version (base_row it) = None.
Proof.
  intros Hoff Hfix. cbn [base_row row_package_name row_package_type
    row_offending_package_version row_fixed_package_version].
  unfold prefer_offending. rewrite Hoff, Hfix. simpl.
  apply package_falsy in Hfix as (-> & -> & _). done.
Qed.

(** C9 (as amended). Row extraction is total. For a finding whose
    vulnerability has neither an offending nor a fixed package, the base
    record has an empty package name and type and no version; such a
    finding does not fail its project: when the folders resolve and the
    writer, the bucket and the file system answer, the project that fetched
    it is recorded as SUCCESS. *)
Theorem C9_extraction_total_without_packages cfg svc GCS_BUCKET TIMESTAMP PROJECT_ID
    proj w all_data it :
  package_truthy (offending_package (vulnerability (finding it))) = false ->
  package_truthy (fixed_package (vulnerability (finding it))) = false ->
  (row_package_name (base_row it) = "" /\
   row_package_type (base_row it) = "" /\
   row_offending_package_version (base_row it) = None /\
   row_fixed_package_version (base_row it) = None) /\
  (list_findings svc PARENT (project_filter PROJECT_ID) = Ok all_data ->
   it ∈ all_data ->
   project_folder_map cfg !! PROJECT_ID = Some proj -> proj <> "" ->
   (forall it', it' ∈ all_data ->
      exists top, category_folder_map cfg !! category_or_unknown it' = Some top /\
                  top <> "") ->
   (forall p vms k8s, to_excel svc p vms k8s = None) ->
   (forall b g p, upload_from_filename svc b g p = None) ->
   (forall p, os_remove svc p = None) ->
   exists w',
     process_project cfg svc GCS_BUCKET TIMESTAMP PROJECT_ID w = (Ok tt, w') /\
     summary w' = summary w ++ [PROJECT_ID +:+ ": SUCCESS"]).
Proof.
  intros Hoff Hfix. split; [by apply base_row_without_packages|].
  intros Hlist Hin Hproj Hne Hcats Hw Hu Hr.
  destruct (project_success cfg svc GCS_BUCKET TIMESTAMP PROJECT_ID proj
              Hproj Hne Hw Hu Hr w all_data Hlist) as (chunks & Hrun & _); [|done|].
  { intros ->. by apply elem_of_nil in Hin. }
  eexists. split; [exact Hrun|done].
Qed.

Lemma C9_extraction_total_witness :
  package_truthy (offending_package (vulnerability (finding sample_bare))) = false /\
  package_truthy (fixed_package (vulnerability (finding sample_bare))) = false /\
  list_findings sample_services PARENT (project_filter "network-396910")
    = Ok [sample_bare] /\
  exists w',
    process_project hardcoded sample_services "reports-bucket" "20240307_090500"
      "network-396910" initial_world = (Ok tt, w') /\
    summary w' = ["network-396910: SUCCESS"].
Proof.
  split; [reflexivity|]. split; [reflexivity|]. split; [reflexivity|].
  apply (proj2 (C9_extraction_total_without_packages hardcoded sample_services
                  "reports-bucket" "20240307_090500" "network-396910" "network"
                  initial_world [sample_bare] sample_bare eq_refl eq_refl)).
  - reflexivity.
  - apply elem_of_cons. by left.
  - reflexivity.
  - discriminate.
  - intros it' ->%list_elem_of_singleton.
    exists "software_vulnerabilities". split; [reflexivity|discriminate].
  - reflexivity.
  - reflexivity.
  - reflexivity.
Defined.

(** The claim as first stated does not hold: here is a finding with neither
    package that is flattened into a row, and the project that fetched it
    is recorded as SUCCESS, not FAILED. *)
Lemma C9_counterexample :
  package_truthy (offending_package (vulnerability (finding sample_bare))) = false /\
  package_truthy (fixed_package (vulnerability (finding sample_bare))) = false /\
  row_package_name (base_row sample_bare) = "" /\
  row_package_type (base_row sample_bare) = "" /\
  process_findings [sample_bare] = ([vm_row (base_row sample_bare) sample_bare], []) /\
  list_findings sample_services PARENT (project_filter "network-396910")
    = Ok [sample_bare] /\
  process_project hardcoded sample_services "reports-bucket" "20240307_090500"
    "network-396910" initial_world =
  (Ok tt,
   {| events :=
        [ EvListFindings PARENT (project_filter "network-396910");
          EvWriteExcel "/tmp/scc_network-396910_SOFTWARE_VULNERABILITY_20240307_090500.xlsx"
            [vm_row (base_row sample_bare) sample_bare] [];
          EvUpload "reports-bucket"
            "SCC-Reports/software_vulnerabilities/network/scc_network-396910_20240307_090500.xlsx"
            "/tmp/scc_network-396910_SOFTWARE_VULNERABILITY_20240307_090500.xlsx";
          EvRemove "/tmp/scc_network-396910_SOFTWARE_VULNERABILITY_20240307_090500.xlsx" ];
      summary := ["network-396910: SUCCESS"] |}).
Proof. repeat split. Qed.

(** ** Claims on the tables *)

(** C2. For every finding: a compute-instance finding adds its row to the
    VMs table only, a container-cluster finding with a workload object adds
    its row to the Kubernetes table only, and any other finding adds
    nothing; so after the loop the VMs table is exactly the rows of the
    compute-instance findings and the Kubernetes table exactly those of the
    container-cluster findings with a workload object, the two kinds being
    disjoint. The buckets partition the fetched findings by category: keys
    are distinct, a bucket holds exactly the findings of its category, and
    every finding is in the bucket of its category. *)
Theorem C2_one_bucket_one_table :
  (forall vms k8s it,
     (is_vm it ->
        process_item (vms, k8s) it = (vms ++ [vm_row (base_row it) it], k8s)) /\
     (forall o rest, is_cluster it -> objects (kubernetes (finding it)) = o :: rest ->
        process_item (vms, k8s) it = (vms, k8s ++ [k8s_row (base_row it) it o])) /\
     (is_cluster it -> objects (kubernetes (finding it)) = [] ->
        process_item (vms, k8s) it = (vms, k8s)) /\
     (~ is_vm it -> ~ is_cluster it -> process_item (vms, k8s) it = (vms, k8s))) /\
  (forall findings,
     Forall2 vm_row_of (filter is_vm findings) (process_findings findings).1 /\
     Forall2 k8s_row_of (filter is_workload findings) (process_findings findings).2) /\
  (forall it, ~ (is_vm it /\ is_workload it)) /\
  (forall all_data,
     NoDup (category_buckets all_data).*1 /\
     (forall k fs, (k, fs) ∈ category_buckets all_data ->
        fs = filter (fun it => category_or_unknown it = k) all_data) /\
     (forall it, it ∈ all_data ->
        exists fs, (category_or_unknown it, fs) ∈ category_buckets all_data /\ it ∈ fs)).
Proof.
  split; [|split; [|split]].
  - intros vms k8s it. split; [|split; [|split]].
    + by apply process_item_vm.
    + intros o rest. by apply process_item_workload.
    + by apply process_item_no_objects.
    + by apply process_item_other.
  - intros findings. unfold process_findings.
    destruct (process_items_tables findings [] []) as (vnew & knew & -> & Hv & Hk).
    by split.
  - intros it [Hvm [Hc _]]. by apply vm_not_cluster in Hvm.
  - intros all_data. destruct (category_buckets_spec all_data) as (Hnd & Hfs & _).
    split; [done|]. split; [|apply category_buckets_elem].
    intros k fs Hin. by destruct (Hfs k fs Hin).
Qed.

Lemma C2_one_bucket_one_table_witness :
  is_vm sample_bare /\
  process_item ([], []) sample_bare = ([vm_row (base_row sample_bare) sample_bare], []) /\
  Forall2 vm_row_of
    (filter is_vm [sample_vm; sample_workload; sample_bucket_resource; sample_bare])
    (process_findings [sample_vm; sample_workload; sample_bucket_resource; sample_bare]).1.
Proof.
  destruct C2_one_bucket_one_table as (Hstep & Htables & _).
  split; [reflexivity|]. split.
  - apply (proj1 (Hstep [] [] sample_bare)). reflexivity.
  - apply (proj1 (Htables [sample_vm; sample_workload; sample_bucket_resource;
                            sample_bare])).
Defined.

Lemma process_findings_app l1 l2 :
  process_findings (l1 ++ l2) = fold_left process_item l2 (process_findings l1).
Proof. unfold process_findings. apply fold_left_app. Qed.

(** C8. A container-cluster finding whose Kubernetes detail has no object
    adds no row to either table: the iteration leaves both tables as they
    were, and the tables of a bucket are the same with or without it. *)
Theorem C8_cluster_without_objects_skipped it :
  is_cluster it -> objects (kubernetes (finding it)) = [] ->
  (forall tables, process_item tables it = tables) /\
  (forall before after,
     process_findings (before ++ it :: after) = process_findings (before ++ after)).
Proof.
  intros Hc Ho.
  assert (Hskip : forall tables, process_item tables it = tables)
    by (intros tables; by apply process_item_no_objects).
  split; [exact Hskip|].
  intros before after. rewrite !process_findings_app. cbn [fold_left].
  by rewrite Hskip.
Qed.

Lemma C8_cluster_without_objects_witness :
  is_cluster sample_empty_cluster /\
  objects (kubernetes (finding sample_empty_cluster)) = [] /\
  process_findings [sample_empty_cluster] = ([], []) /\
  process_findings [sample_vm; sample_empty_cluster; sample_workload] =
  process_findings [sample_vm; sample_workload].
Proof.
  split; [reflexivity|]. split; [reflexivity|].
  destruct (C8_cluster_without_objects_skipped sample_empty_cluster eq_refl eq_refl)
    as (Hstep & Hloop).
  split.
  - apply (Hstep ([], [])).
  - apply (Hloop [sample_vm] [sample_workload]).
Defined.

(** ** The hardcoded configuration *)

Lemma CATEGORY_FOLDER_MAP_lookup CATEGORY :
  CATEGORY_FOLDER_MAP !! CATEGORY =
  if decide (CATEGORY = "SOFTWARE_VULNERABILITY") then Some "software_vulnerabilities"
  else if decide (CATEGORY = "OS_VULNERABILITY") then Some "OS_vulnerabilities"
  else None.
Proof.
  unfold CATEGORY_FOLDER_MAP.
  destruct (decide (CATEGORY = "SOFTWARE_VULNERABILITY")) as [->|Hsw].
  { by rewrite lookup_insert_eq. }
  rewrite lookup_insert_ne by done.
  destruct (decide (CATEGORY = "OS_VULNERABILITY")) as [->|Hos].
  { by rewrite lookup_insert_eq. }
  rewrite lookup_insert_ne by done. apply lookup_empty.
Qed.

(** C10. Every project of the hardcoded list has a (non-empty) entry in
    the project folder map; hence, for these projects, folder resolution
    fails exactly for the categories other than SOFTWARE_VULNERABILITY and
    OS_VULNERABILITY, and in particular for the default category UNKNOWN. *)
Theorem C10_hardcoded_projects_have_folders PROJECT_ID :
  PROJECT_ID ∈ PROJECT_IDS ->
  (exists folder, PROJECT_FOLDER_MAP !! PROJECT_ID = Some folder /\ folder <> "") /\
  (forall CATEGORY,
     (exists e, resolve_folders hardcoded CATEGORY PROJECT_ID = Raise e) <->
     CATEGORY <> "SOFTWARE_VULNERABILITY" /\ CATEGORY <> "OS_VULNERABILITY") /\
  resolve_folders hardcoded "UNKNOWN" PROJECT_ID =
    Raise (ValueError (missing_folder_message "UNKNOWN" PROJECT_ID)).
Proof.
  intros Hin.
  assert (Hfolder : exists folder,
            PROJECT_FOLDER_MAP !! PROJECT_ID = Some folder /\ folder <> "").
  { unfold PROJECT_IDS in Hin.
    repeat (apply elem_of_cons in Hin as [->|Hin]; [eexists; split; [reflexivity|done]|]).
    by apply elem_of_nil in Hin. }
  split; [exact Hfolder|]. destruct Hfolder as (folder & Hfolder & Hne).
  apply str_truthy_true in Hne.
  assert (Hres : forall CATEGORY,
            resolve_folders hardcoded CATEGORY PROJECT_ID =
            if decide (CATEGORY = "SOFTWARE_VULNERABILITY")
            then Ok ("software_vulnerabilities", folder)
            else if decide (CATEGORY = "OS_VULNERABILITY")
            then Ok ("OS_vulnerabilities", folder)
            else Raise (ValueError (missing_folder_message CATEGORY PROJECT_ID))).
  { intros CATEGORY. unfold resolve_folders. cbn [hardcoded category_folder_map
      project_folder_map]. rewrite Hfolder, CATEGORY_FOLDER_MAP_lookup.
    repeat case_decide; simpl; by rewrite ?Hne. }
  split.
  - intros CATEGORY. rewrite Hres. repeat case_decide; split.
    all: try (intros [e He]; done).
    all: try (intros [H1 H2]; done).
    all: eauto.
  - by rewrite Hres.
Qed.

Lemma C10_hardcoded_projects_witness :
  "table-funding" ∈ PROJECT_IDS /\
  resolve_folders hardcoded "UNKNOWN" "table-funding" =
    Raise (ValueError (missing_folder_message "UNKNOWN" "table-funding")).
Proof.
  assert (Hin : "table-funding" ∈ PROJECT_IDS).
  { apply list_elem_of_In. simpl. do 5 right. left. reflexivity. }
  split; [exact Hin|].
  apply (proj2 (proj2 (C10_hardcoded_projects_have_folders "table-funding" Hin))).
Defined.

(** ** The end-to-end scenario *)

Example scenario_response :
  (generate_scc_report_with scenario_config scenario_services).1 =
  Ok ("SCC report generation completed" +:+ newline +:+ newline +:+ "P1: SUCCESS", 200).
Proof. reflexivity. Qed.

Example scenario_workbook :
  workbook_sizes (generate_scc_report_with scenario_config scenario_services).2
    = [(1%nat, 1%nat)] /\
  upload_paths (generate_scc_report_with scenario_config scenario_services).2
    = ["SCC-Reports/software_vulnerabilities/p1/scc_P1_20240307_090500.xlsx"].
Proof. split; reflexivity. Qed.

Example scenario_cve_absent :
  row_cve_id (base_row scenario_cluster_finding) = None.
Proof. reflexivity. Qed.

Example hardcoded_run_summary :
  (generate_scc_report sample_services).1 =
  Ok (join newline
        [ "SCC report generation completed"; "";
          "toorak-396910: SUCCESS";
          "merchants-396910: SUCCESS (No findings)";
          "shared-infrastructure-396910: SUCCESS (No findings)";
          "network-396910: SUCCESS";
          "dev-ops-396910: SUCCESS (No findings)";
          "table-funding: FAILED (Missing folder mapping for CATEGORY=UNKNOWN, "
            +:+ "PROJECT_ID=table-funding)";
          "originator-platform-396910: SUCCESS (No findings)" ], 200).
Proof. reflexivity. Qed.

(** * Further properties of the code *)

(** ** The remaining fields of a row *)

(** X1. In every row, [cve_id] is absent exactly when no field of the
    finding's CVE message is set and is the CVE id otherwise; each version
    field is absent exactly when no field of its package is set and is that
    package's version otherwise (the empty string for a package that has,
    say, only a name); the severity is the finding's. *)
Theorem X1_cve_and_version_fields it :
  let v := vulnerability (finding it) in
  let b := base_row it in
  row_severity b = severity (finding it) /\
  (row_cve_id b = None <->
     cve_id_of (cve v) = "" /\ cve_other_fields_set (cve v) = false) /\
  (row_cve_id b <> None -> row_cve_id b = Some (cve_id_of (cve v))) /\
  (row_offending_package_version b = None <->
     package_name (offending_package v) = "" /\ package_type (offending_package v) = "" /\
     package_version (offending_package v) = "" /\
     package_other_fields_set (offending_package v) = false) /\
  (row_offending_package_version b <> None ->
     row_offending_package_version b = Some (package_version (offending_package v))) /\
  (row_fixed_package_version b = None <->
     package_name (fixed_package v) = "" /\ package_type (fixed_package v) = "" /\
     package_version (fixed_package v) = "" /\
     package_other_fields_set (fixed_package v) = false) /\
  (row_fixed_package_version b <> None ->
     row_fixed_package_version b = Some (package_version (fixed_package v))).
Proof.
  intros v b. subst b. cbn [base_row row_severity row_cve_id
    row_offending_package_version row_fixed_package_version]. fold v.
  split; [done|]. split; [|split].
  - unfold cve_truthy. rewrite <- str_truthy_false, <- orb_false_iff.
    by destruct (_ || _).
  - by destruct (cve_truthy (cve v)).
  - rewrite <- !package_falsy.
    destruct (package_truthy (offending_package v)),
             (package_truthy (fixed_package v)); repeat split; done.
Qed.

Lemma X1_cve_and_version_fields_witness :
  row_cve_id (base_row sample_workload) = Some "CVE-2024-0001" /\
  row_offending_package_version (base_row sample_workload) = None /\
  row_fixed_package_version (base_row sample_workload) = Some "1.1".
Proof.
  destruct (X1_cve_and_version_fields sample_workload)
    as (_ & _ & Hcve & Hoff & _ & _ & Hfix).
  split; [apply Hcve; discriminate|].
  split; [apply Hoff; repeat split|apply Hfix; discriminate].
Defined.

Lemma join_empty_iff sep l :
  Forall (fun s => s <> "") l -> join sep l = "" <-> l = [].
Proof.
  intros Hl. split; [|by intros ->].
  destruct l as [|x rest]; [done|]. apply Forall_cons in Hl as [Hx _].
  destruct x as [|c x]; [done|]. by destruct rest.
Qed.

Lemma affected_files_list_nonempty fs : Forall (fun s => s <> "") (affected_files_list fs).
Proof.
  unfold affected_files_list. apply Forall_forall. intros s Hs.
  apply list_elem_of_In, in_map_iff in Hs as (f & <- & Hf).
  apply list_elem_of_In, list_elem_of_filter in Hf as [Hf _].
  by apply str_truthy_true.
Qed.

Lemma affected_files_list_app fs1 fs2 :
  affected_files_list (fs1 ++ fs2) = affected_files_list fs1 ++ affected_files_list fs2.
Proof. unfold affected_files_list. by rewrite filter_app, map_app. Qed.

(** X2. The [affected_files] text of a row is empty exactly when no file of
    the finding has a non-empty path, and a file with an empty path,
    wherever it stands in the list, changes nothing in the row. *)
Theorem X2_affected_files_skip_empty_paths it :
  (row_affected_files (base_row it) = "" <->
     Forall (fun f => path f = "") (files (finding it))) /\
  (forall before after f, path f = "" ->
     files (finding it) = before ++ f :: after ->
     base_row (with_files it (before ++ after)) = base_row it).
Proof.
  split.
  - cbn [base_row row_affected_files].
    rewrite join_empty_iff by apply affected_files_list_nonempty.
    unfold affected_files_list. induction (files (finding it)) as [|f fs IH]; [done|].
    rewrite filter_cons. case_decide as Hf.
    + split; [done|]. intros [Hnil _]%Forall_cons. apply str_truthy_true in Hf. done.
    + rewrite IH. split.
      * intros Hfs. constructor; [|done].
        apply str_truthy_false. by destruct (str_truthy (path f)).
      * by intros [_ ?]%Forall_cons.
  - intros before after f Hf Hfiles. unfold base_row. simpl. f_equal.
    rewrite Hfiles, !affected_files_list_app. do 2 f_equal.
    unfold affected_files_list. rewrite filter_cons_False; [done|].
    rewrite Hf. done.
Qed.

Lemma X2_affected_files_witness :
  row_affected_files (base_row sample_vm) = "/usr/lib/libssl.so" /\
  base_row (with_files sample_vm [ {| path := "/usr/lib/libssl.so" |} ])
    = base_row sample_vm.
Proof.
  split; [reflexivity|].
  apply (proj2 (X2_affected_files_skip_empty_paths sample_vm)
           [ {| path := "/usr/lib/libssl.so" |} ] [] {| path := "" |});
    reflexivity.
Defined.

(** X3. Only the first object of the Kubernetes detail is read: whatever
    objects follow it, the iteration gives the same tables; and the row of
    a container-cluster finding takes its namespace, object name and image
    list (the non-empty container URIs, comma-separated) from that first
    object. *)
Theorem X3_first_object_only it o rest tables :
  process_item tables (with_objects it (o :: rest)) =
  process_item tables (with_objects it [o]) /\
  (is_cluster it ->
     process_item tables (with_objects it (o :: rest)) =
     (tables.1,
      tables.2 ++
      [ {| k8s_base := base_row it;
           cluster_name := display_name (resource it);
           namespace := ns o;
           k8s_object_name := name o;
           image_uri :=
             join ", " (map uri (filter (fun c => uri c <> "") (containers o)));
           k8s_event_time := event_time (finding it) |} ])).
Proof.
  destruct tables as [vms k8s]. split; [done|].
  intros Hc. unfold process_item. cbn [with_objects resource finding kubernetes objects].
  rewrite decide_False; [|by intros ?%vm_not_cluster].
  rewrite decide_True by done. do 3 f_equal. unfold k8s_row. f_equal.
  unfold image_uri_of. do 2 f_equal.
  apply list_filter_iff. intros c. apply str_truthy_true.
Qed.

Lemma X3_first_object_only_witness :
  is_cluster sample_workload /\
  process_item ([], [])
    (with_objects sample_workload
       [sample_object; {| ns := "kube-system"; name := "dns"; containers := [] |}]) =
  process_item ([], []) sample_workload /\
  process_item ([], []) sample_workload =
    ([], [ {| k8s_base := base_row sample_workload; cluster_name := "gke-1";
              namespace := "default"; k8s_object_name := "web";
              image_uri := "gcr.io/p/web:1"; k8s_event_time := 1700000000 |} ]).
Proof.
  split; [reflexivity|].
  destruct (X3_first_object_only sample_workload sample_object
              [ {| ns := "kube-system"; name := "dns"; containers := [] |} ]
              ([], [])) as [Hsame Hrow].
  split; [exact Hsame|].
  exact (eq_trans (eq_sym Hsame) (Hrow eq_refl)).
Defined.

(** ** Bucketing keeps every finding once, in arrival order *)

Lemma setdefault_append_concat k v d :
  concat (setdefault_append k v d).*2 ≡ₚ concat d.*2 ++ [v].
Proof.
  induction d as [|[k' vs] d IH]; [done|]. cbn [setdefault_append].
  case_decide; rewrite !fmap_cons; cbn [snd concat].
  - rewrite <- !app_assoc. apply Permutation_app_head, Permutation_app_comm.
  - rewrite IH. by rewrite app_assoc.
Qed.

Lemma bucket_into_concat all_data : forall d,
  concat (bucket_into d all_data).*2 ≡ₚ concat d.*2 ++ all_data.
Proof.
  induction all_data as [|x rest IH]; intros d.
  - cbn [bucket_into fold_left]. by rewrite app_nil_r.
  - change (bucket_into d (x :: rest))
      with (bucket_into (setdefault_append (category_or_unknown x) x d) rest).
    rewrite IH, setdefault_append_concat. by rewrite <- app_assoc.
Qed.

Lemma category_or_unknown_nonempty it : category_or_unknown it <> "".
Proof.
  unfold category_or_unknown. destruct (str_truthy _) eqn:E; [|done].
  by apply str_truthy_true.
Qed.

(** X4. Bucketing neither loses nor duplicates a finding: the buckets taken
    together are a rearrangement of the fetched findings. No bucket is
    empty, and no bucket is keyed by the empty string (a finding without
    category goes to the bucket UNKNOWN). *)
Theorem X4_buckets_rearrange_findings all_data :
  concat (category_buckets all_data).*2 ≡ₚ all_data /\
  Forall (fun entry => entry.1 <> "" /\ entry.2 <> []) (category_buckets all_data) /\
  (forall it, it ∈ all_data -> category (finding it) = "" ->
     exists fs, ("UNKNOWN", fs) ∈ category_buckets all_data /\ it ∈ fs).
Proof.
  split; [apply (bucket_into_concat all_data [])|].
  destruct (category_buckets_spec all_data) as (_ & Hfs & _). split.
  - apply Forall_forall. intros [k fs] Hin. destruct (Hfs k fs Hin) as [Heq Hne].
    split; [|done]. simpl.
    destruct fs as [|it fs']; [done|].
    assert (Hit : it ∈ filter (fun it => category_or_unknown it = k) all_data)
      by (rewrite <- Heq; apply elem_of_cons; by left).
    apply list_elem_of_filter in Hit as [<- _]. apply category_or_unknown_nonempty.
  - intros it Hin Hcat. destruct (category_buckets_elem all_data it Hin) as (fs & Hb & Hfs').
    exists fs. split; [|done]. unfold category_or_unknown in Hb. by rewrite Hcat in Hb.
Qed.

Lemma X4_buckets_rearrange_witness :
  sample_uncategorized ∈ [sample_vm; sample_uncategorized; sample_workload] /\
  category (finding sample_uncategorized) = "" /\
  exists fs, ("UNKNOWN", fs) ∈
               category_buckets [sample_vm; sample_uncategorized; sample_workload] /\
             sample_uncategorized ∈ fs.
Proof.
  assert (Hin : sample_uncategorized ∈ [sample_vm; sample_uncategorized; sample_workload]).
  { apply elem_of_cons. right. apply elem_of_cons. by left. }
  split; [exact Hin|]. split; [reflexivity|].
  exact (proj2 (proj2 (X4_buckets_rearrange_findings
                         [sample_vm; sample_uncategorized; sample_workload]))
           sample_uncategorized Hin eq_refl).
Defined.

Lemma bucket_into_keys all_data : forall d,
  (bucket_into d all_data).*1 =
  fold_left (fun seen k => if decide (k ∈ seen) then seen else seen ++ [k])
    (category_or_unknown <$> all_data) d.*1.
Proof.
  induction all_data as [|x rest IH]; intros d; [done|].
  rewrite fmap_cons. cbn [fold_left].
  rewrite <- (setdefault_append_keys (category_or_unknown x) x d).
  apply (IH (setdefault_append (category_or_unknown x) x d)).
Qed.

(** X5. The categories are processed in the order in which they first
    occur among the fetched findings, and inside a bucket the findings keep
    their fetch order. *)
Theorem X5_buckets_in_first_occurrence_order all_data :
  (category_buckets all_data).*1 = first_occurrences (category_or_unknown <$> all_data) /\
  forall k fs, (k, fs) ∈ category_buckets all_data -> fs `sublist_of` all_data.
Proof.
  split; [apply (bucket_into_keys all_data [])|].
  intros k fs Hin. destruct (category_buckets_spec all_data) as (_ & Hfs & _).
  destruct (Hfs k fs Hin) as [-> _]. apply sublist_filter.
Qed.

Lemma X5_buckets_order_witness :
  (category_buckets [sample_vm; sample_uncategorized; sample_workload]).*1 =
    ["SOFTWARE_VULNERABILITY"; "UNKNOWN"] /\
  [sample_vm; sample_workload] `sublist_of`
    [sample_vm; sample_uncategorized; sample_workload].
Proof.
  destruct (X5_buckets_in_first_occurrence_order
              [sample_vm; sample_uncategorized; sample_workload]) as [Hkeys Hsub].
  split; [rewrite Hkeys; reflexivity|].
  apply (Hsub "SOFTWARE_VULNERABILITY"). apply elem_of_cons. by left.
Defined.

(** ** The shape of the call log *)

Lemma project_files_app cfg b ts pid evs1 evs2 :
  project_files cfg b ts pid evs1 -> project_files cfg b ts pid evs2 ->
  project_files cfg b ts pid (evs1 ++ evs2).
Proof.
  induction 1 as [|n c top proj vms k8s evs Hc Hp _ IH]; intros H2; [done|].
  rewrite <- app_assoc. econstructor; eauto.
Qed.

Section Trace.

Variable cfg : Config.
Variable svc : Services.
Variables GCS_BUCKET TIMESTAMP : string.

Lemma process_category_trace PROJECT_ID entry w :
  exists evs,
    events (process_category cfg svc GCS_BUCKET TIMESTAMP PROJECT_ID entry w).2
      = events w ++ evs /\
    project_files cfg GCS_BUCKET TIMESTAMP PROJECT_ID evs.
Proof.
  destruct entry as [CATEGORY findings].
  unfold process_category, bind, lift, call. cbv zeta.
  destruct (resolve_folders cfg CATEGORY PROJECT_ID) as [[top proj]|e] eqn:Hres;
    [|exists []; split; [by rewrite app_nil_r|constructor]].
  apply resolve_folders_Ok in Hres as [Htop Hproj].
  destruct (process_findings findings) as [vms k8s].
  pose proof (fun n => project_files_category cfg GCS_BUCKET TIMESTAMP PROJECT_ID n
                CATEGORY top proj vms k8s [] Htop Hproj
                (project_files_nil cfg GCS_BUCKET TIMESTAMP PROJECT_ID)) as Hchunk.
  destruct (to_excel svc (output_excel PROJECT_ID CATEGORY TIMESTAMP) vms k8s); simpl;
    [exists (take 1 (category_events GCS_BUCKET TIMESTAMP PROJECT_ID CATEGORY top proj
                       vms k8s) ++ []); by split|].
  destruct (upload_from_filename svc GCS_BUCKET
              (gcs_excel_path top proj PROJECT_ID TIMESTAMP)
              (output_excel PROJECT_ID CATEGORY TIMESTAMP)); simpl;
    [exists (take 2 (category_events GCS_BUCKET TIMESTAMP PROJECT_ID CATEGORY top proj
                       vms k8s) ++ []); split; [by rewrite <- app_assoc|done]|].
  exists (take 3 (category_events GCS_BUCKET TIMESTAMP PROJECT_ID CATEGORY top proj
                    vms k8s) ++ []).
  split; [|done].
  destruct (os_remove svc (output_excel PROJECT_ID CATEGORY TIMESTAMP)); simpl;
    by rewrite <- !app_assoc.
Qed.

Lemma categories_trace PROJECT_ID l : forall w,
  exists evs,
    events (for_each l (process_category cfg svc GCS_BUCKET TIMESTAMP PROJECT_ID) w).2
      = events w ++ evs /\
    project_files cfg GCS_BUCKET TIMESTAMP PROJECT_ID evs.
Proof.
  induction l as [|entry rest IH]; intros w; cbn [for_each].
  - exists []. split; [by rewrite app_nil_r|constructor].
  - destruct (process_category_trace PROJECT_ID entry w) as (e1 & He1 & Hf1).
    unfold bind.
    destruct (process_category cfg svc GCS_BUCKET TIMESTAMP PROJECT_ID entry w)
      as [[[]|e] w1]; simpl in He1; [|by exists e1].
    destruct (IH w1) as (e2 & He2 & Hf2). exists (e1 ++ e2).
    split; [by rewrite He2, He1, app_assoc|by apply project_files_app].
Qed.

Lemma process_project_trace PROJECT_ID w :
  exists evs w',
    process_project cfg svc GCS_BUCKET TIMESTAMP PROJECT_ID w = (Ok tt, w') /\
    events w' = events w ++ query_event PROJECT_ID :: evs /\
    project_files cfg GCS_BUCKET TIMESTAMP PROJECT_ID evs.
Proof.
  unfold process_project, try_except, project_body, bind at 1, call.
  destruct (list_findings svc PARENT (project_filter PROJECT_ID)) as [[|it all_data]|e].
  - exists []. eexists. split; [done|]. split; [done|constructor].
  - set (w1 := {| events := events w ++ [_]; summary := summary w |}).
    destruct (categories_trace PROJECT_ID (category_buckets (it :: all_data)) w1)
      as (evs & Hev & Hf).
    unfold bind.
    destruct (for_each _ _ w1) as [[[]|e] w2]; simpl in Hev;
      exists evs; eexists; (split; [done|]); (split; [|done]); simpl;
      by rewrite Hev, <- app_assoc.
  - exists []. eexists. split; [done|]. split; [done|constructor].
Qed.

Lemma projects_trace l : forall w,
  exists evss w',
    for_each l (process_project cfg svc GCS_BUCKET TIMESTAMP) w = (Ok tt, w') /\
    events w' = events w ++
      concat (zip_with (fun pid evs => query_event pid :: evs) l evss) /\
    Forall2 (project_files cfg GCS_BUCKET TIMESTAMP) l evss.
Proof.
  induction l as [|p rest IH]; intros w; cbn [for_each].
  - exists [], w. split; [done|]. split; [by rewrite app_nil_r|constructor].
  - destruct (process_project_trace p w) as (evs & w1 & Hrun & Hev & Hf).
    destruct (IH w1) as (evss & w2 & Hrun' & Hev' & Hfs).
    exists (evs :: evss), w2. unfold bind. rewrite Hrun, Hrun'.
    split; [done|]. split; [|by constructor].
    rewrite Hev', Hev. cbn [zip_with concat]. by rewrite <- !app_assoc.
Qed.

End Trace.

(** X6. The call log of a run that got its two clients is: the three
    client calls, then, for each project in list order, its findings query
    followed by the file calls of that project, which are, for each
    category reached, a prefix of "write the workbook, upload it, remove the
    local file" with the local and remote paths of that project and
    category. *)
Theorem X6_call_log_shape cfg svc GCS_BUCKET :
  environ_GCS_BUCKET svc = Some GCS_BUCKET -> GCS_BUCKET <> "" ->
  storage_Client svc = None -> SecurityCenterClient svc = None ->
  exists evss,
    (generate_scc_report_with cfg svc).2 =
      [EvStorageClient; EvBucket GCS_BUCKET; EvSccClient] ++
      concat (zip_with (fun pid evs => query_event pid :: evs) (project_ids cfg) evss) /\
    Forall2 (project_files cfg GCS_BUCKET (strftime (utcnow svc))) (project_ids cfg) evss.
Proof.
  intros Henv Hne Hst Hscc. unfold generate_scc_report_with. rewrite Henv. simpl.
  apply str_truthy_true in Hne. rewrite Hne.
  unfold report_body, bind at 1 2 3, call. rewrite Hst, Hscc. simpl.
  set (w0 := {| events := _; summary := _ |}).
  destruct (projects_trace cfg svc GCS_BUCKET (strftime (utcnow svc)) (project_ids cfg) w0)
    as (evss & w' & Hrun & Hev & Hfs).
  exists evss. unfold bind. rewrite Hrun. simpl. by rewrite Hev.
Qed.

Lemma X6_call_log_shape_witness :
  environ_GCS_BUCKET scenario_services = Some "reports-bucket" /\
  storage_Client scenario_services = None /\
  SecurityCenterClient scenario_services = None /\
  exists evss,
    (generate_scc_report_with scenario_config scenario_services).2 =
      [EvStorageClient; EvBucket "reports-bucket"; EvSccClient] ++
      concat (zip_with (fun pid evs => query_event pid :: evs) ["P1"] evss) /\
    Forall2 (project_files scenario_config "reports-bucket"
               (strftime (utcnow scenario_services))) ["P1"] evss.
Proof.
  split; [reflexivity|]. split; [reflexivity|]. split; [reflexivity|].
  apply (X6_call_log_shape scenario_config scenario_services "reports-bucket");
    [reflexivity|discriminate|reflexivity|reflexivity].
Defined.

(** ** What every call log satisfies *)

Lemma project_segments_of cfg b ts l : forall evss,
  (forall p, p ∈ l -> p ∈ project_ids cfg) ->
  Forall2 (project_files cfg b ts) l evss ->
  Forall (project_segment cfg b ts) (zip_with (fun pid evs => query_event pid :: evs) l evss).
Proof.
  induction l as [|p rest IH]; intros evss Hl Hf; inversion Hf; subst; [constructor|].
  cbn [zip_with]. constructor.
  - exists p. eexists. split; [apply Hl, elem_of_cons; by left|]. by split.
  - apply IH; [|done]. intros q Hq. apply Hl, elem_of_cons. by right.
Qed.

Lemma report_log_shape cfg svc GCS_BUCKET :
  storage_Client svc = None -> SecurityCenterClient svc = None ->
  exists evss,
    events (report_body cfg svc GCS_BUCKET initial_world).2 =
      [EvStorageClient; EvBucket GCS_BUCKET; EvSccClient] ++
      concat (zip_with (fun pid evs => query_event pid :: evs) (project_ids cfg) evss) /\
    Forall2 (project_files cfg GCS_BUCKET (strftime (utcnow svc))) (project_ids cfg) evss.
Proof.
  intros Hst Hscc. unfold report_body, bind at 1 2 3, call. rewrite Hst, Hscc. simpl.
  set (w0 := {| events := _; summary := _ |}).
  destruct (projects_trace cfg svc GCS_BUCKET (strftime (utcnow svc)) (project_ids cfg) w0)
    as (evss & w' & Hrun & Hev & Hfs).
  exists evss. unfold bind. rewrite Hrun. simpl. by rewrite Hev.
Qed.

(** Whatever happens, the log is some set-up calls followed by the calls of
    configured projects. *)
Lemma run_log_any cfg svc :
  exists control evss,
    (generate_scc_report_with cfg svc).2 = control ++ concat evss /\
    Forall control_event control /\
    Forall (project_segment cfg (default "" (environ_GCS_BUCKET svc))
              (strftime (utcnow svc))) evss.
Proof.
  unfold generate_scc_report_with.
  destruct (opt_truthy (environ_GCS_BUCKET svc)).
  2:{ exists [], []. by repeat split. }
  set (b := default "" (environ_GCS_BUCKET svc)).
  destruct (storage_Client svc) as [e|] eqn:Hst.
  { exists [EvStorageClient], []. unfold report_body, bind, call. rewrite Hst. simpl.
    split; [done|]. split; by repeat constructor. }
  destruct (SecurityCenterClient svc) as [e|] eqn:Hscc.
  { exists [EvStorageClient; EvBucket b; EvSccClient], [].
    unfold report_body, bind, call. rewrite Hst, Hscc. simpl.
    split; [done|]. split; by repeat constructor. }
  destruct (report_log_shape cfg svc b Hst Hscc) as (evss & Hev & Hfs).
  exists [EvStorageClient; EvBucket b; EvSccClient],
         (zip_with (fun pid evs => query_event pid :: evs) (project_ids cfg) evss).
  destruct (report_body cfg svc b initial_world) as [r w]. simpl in *.
  split; [exact Hev|]. split; [by repeat constructor|].
  by apply project_segments_of.
Qed.

(** *** One query per project *)

Lemma queries_app l1 l2 : queries (l1 ++ l2) = queries l1 ++ queries l2.
Proof. apply flat_map_app. Qed.

Lemma queries_project_files cfg b ts pid evs :
  project_files cfg b ts pid evs -> queries evs = [].
Proof.
  induction 1 as [|n c top proj vms k8s evs _ _ _ IH]; [done|].
  rewrite queries_app, IH. by destruct n as [|[|[|[|n]]]].
Qed.

Lemma queries_projects cfg b ts l : forall evss,
  Forall2 (project_files cfg b ts) l evss ->
  queries (concat (zip_with (fun pid evs => query_event pid :: evs) l evss))
  = project_filter <$> l.
Proof.
  induction l as [|p rest IH]; intros evss Hf; inversion Hf as [|? evs ? evss' Hp Hrest];
    subst; [done|].
  cbn [zip_with concat]. rewrite queries_app. cbn [queries flat_map query_event].
  fold (queries evs). rewrite (queries_project_files _ _ _ _ _ Hp), (IH _ Hrest).
  by rewrite fmap_cons.
Qed.

(** X7. A run that got its two clients queries every project of the list
    exactly once, in list order, whatever fails in between; each query uses
    the fixed filter restricted to that project's display name. *)
Theorem X7_one_query_per_project cfg svc :
  opt_truthy (environ_GCS_BUCKET svc) = true ->
  storage_Client svc = None -> SecurityCenterClient svc = None ->
  queries (generate_scc_report_with cfg svc).2 =
  (fun pid => FILTER +:+ " AND resource.project_display_name=" +:+ dquote +:+ pid
              +:+ dquote) <$> project_ids cfg.
Proof.
  intros Henv Hst Hscc. unfold generate_scc_report_with. rewrite Henv.
  destruct (report_log_shape cfg svc (default "" (environ_GCS_BUCKET svc)) Hst Hscc)
    as (evss & Hev & Hfs).
  destruct (report_body _ _ _ _) as [r w]. cbn [snd] in *. rewrite Hev, queries_app.
  rewrite (queries_projects _ _ _ _ _ Hfs). cbn [queries flat_map app].
  apply list_fmap_ext.
  intros _ pid _. reflexivity.
Qed.

Lemma X7_one_query_per_project_witness :
  opt_truthy (environ_GCS_BUCKET sample_services) = true /\
  storage_Client sample_services = None /\
  SecurityCenterClient sample_services = None /\
  length (queries (generate_scc_report sample_services).2) = 7%nat.
Proof.
  split; [reflexivity|]. split; [reflexivity|]. split; [reflexivity|].
  unfold generate_scc_report.
  rewrite (X7_one_query_per_project hardcoded sample_services eq_refl eq_refl eq_refl).
  reflexivity.
Defined.

(** *** Files are written, then uploaded, then removed *)

Lemma app_eq_middle {A} (l1 l2 a c : list A) x :
  l1 ++ l2 = a ++ x :: c ->
  (exists c', l1 = a ++ x :: c' /\ c = c' ++ l2) \/
  (exists a', a = l1 ++ a' /\ l2 = a' ++ x :: c).
Proof.
  revert a. induction l1 as [|y l1 IH]; intros a H.
  - right. by exists a.
  - destruct a as [|z a]; simpl in H.
    + injection H as -> <-. left. by exists l1.
    + injection H as -> H. destruct (IH a H) as [(c' & -> & ->)|(a' & -> & ->)].
      * left. by exists c'.
      * right. by exists a'.
Qed.

Lemma tidy_no_transfer l : Forall no_transfer l -> tidy l.
Proof.
  intros Hl. rewrite Forall_forall in Hl.
  split.
  - intros l1 l2 b g p ->. exfalso. apply (Hl (EvUpload b g p)).
    apply elem_of_app. right. apply elem_of_cons. by left.
  - intros l1 l2 p ->. exfalso. apply (Hl (EvRemove p)).
    apply elem_of_app. right. apply elem_of_cons. by left.
Qed.

Lemma tidy_app l1 l2 : tidy l1 -> tidy l2 -> tidy (l1 ++ l2).
Proof.
  intros [Hu1 Hr1] [Hu2 Hr2]. split.
  - intros a c b g p [(c' & H1 & _)|(a' & -> & H2)]%app_eq_middle.
    + by eapply Hu1.
    + destruct (Hu2 _ _ _ _ _ H2) as (l0 & vms & k8s & ->).
      exists (l1 ++ l0), vms, k8s. by rewrite app_assoc.
  - intros a c p [(c' & H1 & _)|(a' & -> & H2)]%app_eq_middle.
    + by eapply Hr1.
    + destruct (Hr2 _ _ _ H2) as (l0 & b & g & ->).
      exists (l1 ++ l0), b, g. by rewrite app_assoc.
Qed.

Lemma tidy_category_events n b ts pid c top proj vms k8s :
  tidy (take n (category_events b ts pid c top proj vms k8s)).
Proof.
  destruct n as [|[|[|n]]]; [| | |rewrite take_ge by (cbn; lia)];
    unfold category_events; cbn [take].
  - apply tidy_no_transfer. constructor.
  - apply tidy_no_transfer. by repeat constructor.
  - split.
    + intros l1 l2 b' g p H.
      destruct l1 as [|e1 [|e2 l1]]; simplify_eq/=;
        first [by exists [], vms, k8s|by destruct l1].
    + intros l1 l2 p H.
      destruct l1 as [|e1 [|e2 l1]]; simplify_eq/=. by destruct l1.
  - split.
    + intros l1 l2 b' g p H.
      destruct l1 as [|e1 [|e2 [|e3 l1]]]; simplify_eq/=;
        first [by exists [], vms, k8s|by destruct l1].
    + intros l1 l2 p H.
      destruct l1 as [|e1 [|e2 [|e3 l1]]]; simplify_eq/=;
        first [by exists [EvWriteExcel (output_excel pid c ts) vms k8s], b,
                         (gcs_excel_path top proj pid ts)
              |by destruct l1].
Qed.

Lemma tidy_project_files cfg b ts pid evs : project_files cfg b ts pid evs -> tidy evs.
Proof.
  induction 1; [apply tidy_no_transfer; constructor|].
  apply tidy_app; [apply tidy_category_events|done].
Qed.

Lemma tidy_concat ls : Forall tidy ls -> tidy (concat ls).
Proof.
  induction 1; [apply tidy_no_transfer; constructor|]. by apply tidy_app.
Qed.

(** X8. In the log of any run, at every place where an upload stands the
    call just before it is the writing of the very file it sends, and at
    every place where a removal stands the call just before it is the
    upload of the very file it removes: nothing is uploaded that was not
    just written, no file is uploaded twice in a row, and a local file is
    removed only once its upload has returned. *)
Theorem X8_write_then_upload_then_remove cfg svc :
  let log := (generate_scc_report_with cfg svc).2 in
  (forall l1 l2 b g p, log = l1 ++ EvUpload b g p :: l2 ->
     exists l0 vms k8s, l1 = l0 ++ [EvWriteExcel p vms k8s]) /\
  (forall l1 l2 p, log = l1 ++ EvRemove p :: l2 ->
     exists l0 b g, l1 = l0 ++ [EvUpload b g p]).
Proof.
  destruct (run_log_any cfg svc) as (control & evss & -> & Hc & Hp).
  apply tidy_app.
  - apply tidy_no_transfer. eapply Forall_impl; [exact Hc|]. by intros [].
  - apply tidy_concat. eapply Forall_impl; [exact Hp|].
    intros evs (pid & rest & _ & -> & Hf).
    apply (tidy_app [query_event pid]); [|by eapply tidy_project_files].
    apply tidy_no_transfer. by repeat constructor.
Qed.

Lemma X8_write_then_upload_witness :
  (generate_scc_report sample_services).2 =
    take 5 (generate_scc_report sample_services).2 ++
    EvUpload "reports-bucket"
      "SCC-Reports/software_vulnerabilities/tc/scc_toorak-396910_20240307_090500.xlsx"
      "/tmp/scc_toorak-396910_SOFTWARE_VULNERABILITY_20240307_090500.xlsx"
    :: drop 6 (generate_scc_report sample_services).2 /\
  exists l0 vms k8s,
    take 5 (generate_scc_report sample_services).2 =
    l0 ++ [EvWriteExcel
             "/tmp/scc_toorak-396910_SOFTWARE_VULNERABILITY_20240307_090500.xlsx"
             vms k8s].
Proof.
  split; [reflexivity|].
  apply (proj1 (X8_write_then_upload_then_remove hardcoded sample_services)
           (take 5 (generate_scc_report sample_services).2)
           (drop 6 (generate_scc_report sample_services).2)
           "reports-bucket"
           "SCC-Reports/software_vulnerabilities/tc/scc_toorak-396910_20240307_090500.xlsx").
  reflexivity.
Defined.

(** *** Where uploads go and what they send *)

Lemma project_files_upload cfg b ts pid evs b' g p :
  project_files cfg b ts pid evs -> EvUpload b' g p ∈ evs ->
  b' = b /\
  exists c top proj,
    category_folder_map cfg !! c = Some top /\
    project_folder_map cfg !! pid = Some proj /\
    g = gcs_excel_path top proj pid ts /\ p = output_excel pid c ts.
Proof.
  induction 1 as [|n c top proj vms k8s evs Hc Hp _ IH]; [by intros ?%elem_of_nil|].
  intros [Hin|Hin]%elem_of_app; [|by apply IH].
  apply subseteq_take in Hin. unfold category_events in Hin.
  apply elem_of_cons in Hin as [[=]|Hin].
  apply elem_of_cons in Hin as [[= -> -> ->]|Hin].
  - split; [done|]. by exists c, top, proj.
  - by apply list_elem_of_singleton in Hin.
Qed.

Lemma elem_of_concat_Forall {A} (P : list A -> Prop) (ls : list (list A)) x :
  Forall P ls -> x ∈ concat ls -> exists l, P l /\ x ∈ l.
Proof.
  induction 1 as [|l ls Hl _ IH]; [by intros ?%elem_of_nil|].
  cbn [concat]. intros [Hin|Hin]%elem_of_app; [eauto|by apply IH].
Qed.

(** X9. Every upload of any run goes to the bucket named by GCS_BUCKET and
    sends the local workbook /tmp/scc_<project>_<category>_<timestamp>.xlsx
    of a configured project and of the very category whose folder is in the
    destination path. *)
Theorem X9_upload_bucket_and_local_file cfg svc b g p :
  EvUpload b g p ∈ (generate_scc_report_with cfg svc).2 ->
  environ_GCS_BUCKET svc = Some b /\
  exists PROJECT_ID CATEGORY top proj,
    PROJECT_ID ∈ project_ids cfg /\
    category_folder_map cfg !! CATEGORY = Some top /\
    project_folder_map cfg !! PROJECT_ID = Some proj /\
    g = "SCC-Reports/" +:+ top +:+ "/" +:+ proj +:+ "/scc_" +:+ PROJECT_ID +:+ "_"
        +:+ strftime (utcnow svc) +:+ ".xlsx" /\
    p = "/tmp/scc_" +:+ PROJECT_ID +:+ "_" +:+ CATEGORY +:+ "_"
        +:+ strftime (utcnow svc) +:+ ".xlsx".
Proof.
  intros Hin.
  assert (Henv : environ_GCS_BUCKET svc = Some (default "" (environ_GCS_BUCKET svc))).
  { revert Hin. unfold generate_scc_report_with.
    destruct (environ_GCS_BUCKET svc) as [s|]; [done|].
    by intros ?%elem_of_nil. }
  destruct (run_log_any cfg svc) as (control & evss & Hlog & Hc & Hp).
  rewrite Hlog in Hin. apply elem_of_app in Hin as [Hin|Hin].
  { rewrite Forall_forall in Hc. by apply Hc in Hin. }
  destruct (elem_of_concat_Forall _ _ _ Hp Hin) as (evs & (pid & rest & Hpid & -> & Hf) & Hev).
  apply elem_of_cons in Hev as [[=]|Hev].
  destruct (project_files_upload _ _ _ _ _ _ _ _ Hf Hev)
    as (-> & c & top & proj & Hc' & Hp' & -> & ->).
  split; [done|]. by exists pid, c, top, proj.
Qed.

Lemma X9_upload_bucket_witness :
  environ_GCS_BUCKET sample_services = Some "reports-bucket" /\
  exists PROJECT_ID CATEGORY top proj,
    PROJECT_ID ∈ PROJECT_IDS /\
    CATEGORY_FOLDER_MAP !! CATEGORY = Some top /\
    PROJECT_FOLDER_MAP !! PROJECT_ID = Some proj /\
    "SCC-Reports/software_vulnerabilities/tc/scc_toorak-396910_20240307_090500.xlsx" =
      "SCC-Reports/" +:+ top +:+ "/" +:+ proj +:+ "/scc_" +:+ PROJECT_ID +:+ "_"
      +:+ strftime (utcnow sample_services) +:+ ".xlsx" /\
    "/tmp/scc_toorak-396910_SOFTWARE_VULNERABILITY_20240307_090500.xlsx" =
      "/tmp/scc_" +:+ PROJECT_ID +:+ "_" +:+ CATEGORY +:+ "_"
      +:+ strftime (utcnow sample_services) +:+ ".xlsx".
Proof.
  apply (X9_upload_bucket_and_local_file hardcoded sample_services).
  apply list_elem_of_In. vm_compute. do 5 right. left. reflexivity.
Defined.

(** ** How failures surface *)

(** X10. When a client cannot be constructed the exception leaves the entry
    point: there is no response and no status, and no project has been
    queried. *)
Theorem X10_client_failure_escapes cfg svc GCS_BUCKET :
  environ_GCS_BUCKET svc = Some GCS_BUCKET -> GCS_BUCKET <> "" ->
  (forall e, storage_Client svc = Some e ->
     generate_scc_report_with cfg svc = (Raise e, [EvStorageClient])) /\
  (forall e, storage_Client svc = None -> SecurityCenterClient svc = Some e ->
     generate_scc_report_with cfg svc =
       (Raise e, [EvStorageClient; EvBucket GCS_BUCKET; EvSccClient])).
Proof.
  intros Henv Hne. apply str_truthy_true in Hne.
  unfold generate_scc_report_with. rewrite Henv. simpl. rewrite Hne.
  unfold report_body, bind, call. split.
  - intros e ->. done.
  - intros e -> ->. done.
Qed.

Lemma X10_client_failure_witness :
  environ_GCS_BUCKET sample_services_no_credentials = Some "reports-bucket" /\
  storage_Client sample_services_no_credentials
    = Some (ServiceError "DefaultCredentialsError") /\
  generate_scc_report sample_services_no_credentials =
    (Raise (ServiceError "DefaultCredentialsError"), [EvStorageClient]).
Proof.
  split; [reflexivity|]. split; [reflexivity|].
  apply (proj1 (X10_client_failure_escapes hardcoded sample_services_no_credentials
                  "reports-bucket" eq_refl ltac:(discriminate))).
  reflexivity.
Defined.

Section ProjectFailures.

Variable cfg : Config.
Variable svc : Services.
Variables GCS_BUCKET TIMESTAMP PROJECT_ID : string.

(** X11. When the findings query of a project raises, the project's line is
    "<project-id>: FAILED (<text of the exception>)" and the query is the
    only call made for it. *)
Theorem X11_query_failure w e :
  list_findings svc PARENT (project_filter PROJECT_ID) = Raise e ->
  process_project cfg svc GCS_BUCKET TIMESTAMP PROJECT_ID w =
  (Ok tt,
   {| events := events w ++ [EvListFindings PARENT (project_filter PROJECT_ID)];
      summary := summary w ++
        [PROJECT_ID +:+ ": FAILED (" +:+ str_of_exception e +:+ ")"] |}).
Proof.
  intros Hq. unfold process_project, try_except, project_body, bind, call.
  by rewrite Hq.
Qed.

(** X12. For a category whose folders resolve, with the tables of its
    findings:
    if writing the workbook raises, nothing is uploaded; if the upload
    raises, the local file is not removed; otherwise the file is removed
    after the upload and the outcome of the category is that of the
    removal. *)
Theorem X12_category_chain CATEGORY findings w top proj vms k8s :
  resolve_folders cfg CATEGORY PROJECT_ID = Ok (top, proj) ->
  process_findings findings = (vms, k8s) ->
  let tmp := output_excel PROJECT_ID CATEGORY TIMESTAMP in
  let dest := gcs_excel_path top proj PROJECT_ID TIMESTAMP in
  let res := process_category cfg svc GCS_BUCKET TIMESTAMP PROJECT_ID
               (CATEGORY, findings) w in
  (forall e, to_excel svc tmp vms k8s = Some e ->
     res = (Raise e, {| events := events w ++ [EvWriteExcel tmp vms k8s];
                        summary := summary w |})) /\
  (forall e, to_excel svc tmp vms k8s = None ->
     upload_from_filename svc GCS_BUCKET dest tmp = Some e ->
     res = (Raise e, {| events := events w ++
                          [EvWriteExcel tmp vms k8s; EvUpload GCS_BUCKET dest tmp];
                        summary := summary w |})) /\
  (to_excel svc tmp vms k8s = None ->
   upload_from_filename svc GCS_BUCKET dest tmp = None ->
   res = (outcome (os_remove svc tmp),
          {| events := events w ++
               [EvWriteExcel tmp vms k8s; EvUpload GCS_BUCKET dest tmp;
                EvRemove tmp];
             summary := summary w |})).
Proof.
  intros Hres Hrows tmp dest res. subst res.
  unfold process_category, bind, lift, call. rewrite Hres, Hrows. cbv zeta.
  fold tmp dest. split; [|split].
  - by intros e ->.
  - intros e -> ->. simpl. by rewrite <- app_assoc.
  - intros -> ->. simpl. by rewrite <- !app_assoc.
Qed.

(** X13. Whatever a category raises (folder resolution, write, upload or
    removal), the project stops there: its line is
    "<project-id>: FAILED (<text of that exception>)", the log ends with the
    calls made up to the exception, and the remaining categories are not
    touched. *)
Theorem X13_first_exception_fails_project w all_data pre entry post w1 w2 e :
  list_findings svc PARENT (project_filter PROJECT_ID) = Ok all_data ->
  category_buckets all_data = pre ++ entry :: post ->
  for_each pre (process_category cfg svc GCS_BUCKET TIMESTAMP PROJECT_ID)
    {| events := events w ++ [EvListFindings PARENT (project_filter PROJECT_ID)];
       summary := summary w |} = (Ok tt, w1) ->
  process_category cfg svc GCS_BUCKET TIMESTAMP PROJECT_ID entry w1 = (Raise e, w2) ->
  process_project cfg svc GCS_BUCKET TIMESTAMP PROJECT_ID w =
    (Ok tt,
     {| events := events w2;
        summary := summary w ++
          [PROJECT_ID +:+ ": FAILED (" +:+ str_of_exception e +:+ ")"] |}).
Proof.
  intros Hlist Hbuckets Hpre Hfail.
  pose proof (categories_spec cfg svc GCS_BUCKET TIMESTAMP PROJECT_ID pre
                {| events := events w ++ [EvListFindings PARENT (project_filter PROJECT_ID)];
                   summary := summary w |}) as [Hsum1 _].
  rewrite Hpre in Hsum1. simpl in Hsum1.
  pose proof (process_category_spec cfg svc GCS_BUCKET TIMESTAMP PROJECT_ID entry w1)
    as [Hsum2 _].
  rewrite Hfail in Hsum2. simpl in Hsum2.
  unfold process_project, try_except, project_body, bind at 1, call. rewrite Hlist.
  destruct all_data as [|it rest].
  { exfalso. cbv in Hbuckets. by destruct pre. }
  rewrite Hbuckets.
  unfold bind at 1. rewrite for_each_app. unfold bind at 1. rewrite Hpre.
  cbn [for_each]. unfold bind at 1. rewrite Hfail.
  unfold summary_append. cbn [events summary]. by rewrite Hsum2, Hsum1.
Qed.

(** X14. A project that fetched a finding whose category (UNKNOWN when the
    finding has none) has no entry in the category folder map is recorded
    as FAILED, wherever that finding stands among the fetched ones. *)
Theorem X14_unmapped_category_fails_project w all_data it :
  list_findings svc PARENT (project_filter PROJECT_ID) = Ok all_data ->
  it ∈ all_data ->
  category_folder_map cfg !! category_or_unknown it = None ->
  exists error_text w',
    process_project cfg svc GCS_BUCKET TIMESTAMP PROJECT_ID w = (Ok tt, w') /\
    summary w' = summary w ++ [PROJECT_ID +:+ ": FAILED (" +:+ error_text +:+ ")"].
Proof.
  intros Hlist Hin Hmiss.
  destruct (category_buckets_elem all_data it Hin) as (fs & Hbucket & Hfs).
  pose proof (project_body_spec cfg svc GCS_BUCKET TIMESTAMP PROJECT_ID w) as [_ Hsum].
  assert (Hraise : exists e w',
            project_body cfg svc GCS_BUCKET TIMESTAMP PROJECT_ID w = (Raise e, w')).
  { unfold project_body, bind at 1, call. rewrite Hlist.
    destruct all_data as [|x rest]; [by apply elem_of_nil in Hin|].
    unfold bind.
    destruct (for_each_raises (category_buckets (x :: rest))
                (process_category cfg svc GCS_BUCKET TIMESTAMP PROJECT_ID)
                (category_or_unknown it, fs) Hbucket) with
      (w := {| events := events w ++ [EvListFindings PARENT (project_filter PROJECT_ID)];
               summary := summary w |}) as (e & w' & ->); [|eauto].
    intros w0. unfold process_category, bind, lift.
    rewrite (resolve_folders_missing cfg _ PROJECT_ID (or_introl Hmiss)). eauto. }
  destruct Hraise as (e & w' & Hrun). rewrite Hrun in Hsum. simpl in Hsum.
  exists (str_of_exception e). eexists.
  unfold process_project, try_except. rewrite Hrun. unfold summary_append.
  split; [done|]. simpl. by rewrite Hsum.
Qed.

End ProjectFailures.

Lemma X11_query_failure_witness :
  list_findings sample_services_query_down PARENT (project_filter "toorak-396910")
    = Raise (ServiceError "503 Service Unavailable") /\
  process_project hardcoded sample_services_query_down "reports-bucket" "20240307_090500"
    "toorak-396910" initial_world =
  (Ok tt,
   {| events := [EvListFindings PARENT (project_filter "toorak-396910")];
      summary := ["toorak-396910: FAILED (503 Service Unavailable)"] |}).
Proof.
  split; [reflexivity|].
  apply (X11_query_failure hardcoded sample_services_query_down "reports-bucket"
           "20240307_090500" "toorak-396910" initial_world
           (ServiceError "503 Service Unavailable")).
  reflexivity.
Defined.

Lemma X12_category_chain_witness :
  resolve_folders hardcoded "SOFTWARE_VULNERABILITY" "toorak-396910"
    = Ok ("software_vulnerabilities", "tc") /\
  exists vms k8s,
    process_findings [sample_vm] = (vms, k8s) /\
    process_category hardcoded sample_services_upload_refused "reports-bucket"
      "20240307_090500" "toorak-396910" ("SOFTWARE_VULNERABILITY", [sample_vm])
      initial_world =
    (Raise (ServiceError "403 Forbidden"),
     {| events :=
          [ EvWriteExcel
              "/tmp/scc_toorak-396910_SOFTWARE_VULNERABILITY_20240307_090500.xlsx" vms k8s;
            EvUpload "reports-bucket"
              "SCC-Reports/software_vulnerabilities/tc/scc_toorak-396910_20240307_090500.xlsx"
              "/tmp/scc_toorak-396910_SOFTWARE_VULNERABILITY_20240307_090500.xlsx" ];
        summary := [] |}).
Proof.
  split; [reflexivity|].
  destruct (process_findings [sample_vm]) as [vms k8s] eqn:Hrows.
  exists vms, k8s. split; [reflexivity|].
  apply (proj1 (proj2 (X12_category_chain hardcoded sample_services_upload_refused
                         "reports-bucket" "20240307_090500" "toorak-396910"
                         "SOFTWARE_VULNERABILITY" [sample_vm] initial_world
                         "software_vulnerabilities" "tc" vms k8s eq_refl Hrows)));
    reflexivity.
Defined.

Lemma X13_first_exception_witness :
  list_findings sample_services_upload_refused PARENT (project_filter "toorak-396910")
    = Ok [sample_vm; sample_workload; sample_empty_cluster] /\
  summary (process_project hardcoded sample_services_upload_refused "reports-bucket"
             "20240307_090500" "toorak-396910" initial_world).2
    = ["toorak-396910: FAILED (403 Forbidden)"].
Proof.
  split; [reflexivity|].
  rewrite (X13_first_exception_fails_project hardcoded sample_services_upload_refused
             "reports-bucket" "20240307_090500" "toorak-396910" initial_world
             [sample_vm; sample_workload; sample_empty_cluster] []
             ("SOFTWARE_VULNERABILITY", [sample_vm; sample_workload; sample_empty_cluster])
             []
             {| events := [EvListFindings PARENT (project_filter "toorak-396910")];
                summary := [] |}
             (process_category hardcoded sample_services_upload_refused "reports-bucket"
                "20240307_090500" "toorak-396910"
                ("SOFTWARE_VULNERABILITY",
                 [sample_vm; sample_workload; sample_empty_cluster])
                {| events := [EvListFindings PARENT (project_filter "toorak-396910")];
                   summary := [] |}).2
             (ServiceError "403 Forbidden") eq_refl eq_refl eq_refl eq_refl).
  reflexivity.
Defined.

Lemma X14_unmapped_category_witness :
  list_findings sample_services PARENT (project_filter "table-funding")
    = Ok [sample_vm; sample_uncategorized] /\
  sample_uncategorized ∈ [sample_vm; sample_uncategorized] /\
  CATEGORY_FOLDER_MAP !! category_or_unknown sample_uncategorized = None /\
  exists error_text w',
    process_project hardcoded sample_services "reports-bucket" "20240307_090500"
      "table-funding" initial_world = (Ok tt, w') /\
    summary w' = ["table-funding: FAILED (" +:+ error_text +:+ ")"].
Proof.
  assert (Hin : sample_uncategorized ∈ [sample_vm; sample_uncategorized]).
  { apply elem_of_cons. right. apply elem_of_cons. by left. }
  split; [reflexivity|]. split; [exact Hin|]. split; [reflexivity|].
  apply (X14_unmapped_category_fails_project hardcoded sample_services "reports-bucket"
           "20240307_090500" "table-funding" initial_world
           [sample_vm; sample_uncategorized] sample_uncategorized eq_refl Hin eq_refl).
Defined.

(** X15. When a project fetched at least one finding, has a folder, every
    fetched finding has a mapped category, and the writer, the bucket and
    the file system answer, the project's line is "<project-id>: SUCCESS"
    and, after the query, the log holds for each category, in bucket order,
    exactly the three calls write, upload, remove, with the tables of that
    bucket. *)
Theorem X15_project_success cfg svc GCS_BUCKET TIMESTAMP PROJECT_ID proj w all_data :
  project_folder_map cfg !! PROJECT_ID = Some proj -> proj <> "" ->
  (forall p vms k8s, to_excel svc p vms k8s = None) ->
  (forall b g p, upload_from_filename svc b g p = None) ->
  (forall p, os_remove svc p = None) ->
  list_findings svc PARENT (project_filter PROJECT_ID) = Ok all_data ->
  all_data <> [] ->
  (forall it, it ∈ all_data ->
     exists top, category_folder_map cfg !! category_or_unknown it = Some top /\
                 top <> "") ->
  exists chunks,
    process_project cfg svc GCS_BUCKET TIMESTAMP PROJECT_ID w =
      (Ok tt,
       {| events := events w ++ EvListFindings PARENT (project_filter PROJECT_ID)
                               :: concat chunks;
          summary := summary w ++ [PROJECT_ID +:+ ": SUCCESS"] |}) /\
    Forall2 (fun entry chunk =>
               exists top,
                 category_folder_map cfg !! entry.1 = Some top /\
                 chunk =
                   [ EvWriteExcel (output_excel PROJECT_ID entry.1 TIMESTAMP)
                       (process_findings entry.2).1 (process_findings entry.2).2;
                     EvUpload GCS_BUCKET (gcs_excel_path top proj PROJECT_ID TIMESTAMP)
                       (output_excel PROJECT_ID entry.1 TIMESTAMP);
                     EvRemove (output_excel PROJECT_ID entry.1 TIMESTAMP) ])
      (category_buckets all_data) chunks.
Proof.
  intros Hproj Hne Hw Hu Hr Hlist Hdata Hcats.
  destruct (project_success cfg svc GCS_BUCKET TIMESTAMP PROJECT_ID proj
              Hproj Hne Hw Hu Hr w all_data Hlist Hdata Hcats) as (chunks & Hrun & Hchunks).
  exists chunks. split; [exact Hrun|].
  eapply Forall2_impl; [exact Hchunks|].
  intros entry chunk (top & vms & k8s & Htop & Hrows & ->).
  exists top. split; [done|]. by rewrite Hrows.
Qed.

Lemma X15_project_success_witness :
  PROJECT_FOLDER_MAP !! "network-396910" = Some "network" /\
  list_findings sample_services PARENT (project_filter "network-396910")
    = Ok [sample_bare] /\
  exists chunks,
    process_project hardcoded sample_services "reports-bucket" "20240307_090500"
      "network-396910" initial_world =
      (Ok tt,
       {| events := EvListFindings PARENT (project_filter "network-396910")
                    :: concat chunks;
          summary := ["network-396910: SUCCESS"] |}) /\
    length chunks = 1%nat.
Proof.
  split; [reflexivity|]. split; [reflexivity|].
  destruct (X15_project_success hardcoded sample_services "reports-bucket"
              "20240307_090500" "network-396910" "network" initial_world [sample_bare]
              eq_refl ltac:(discriminate)
              (fun _ _ _ => eq_refl) (fun _ _ _ => eq_refl) (fun _ => eq_refl)
              eq_refl ltac:(discriminate)) as (chunks & Hrun & Hchunks).
  { intros it Hin%list_elem_of_singleton. subst it.
    exists "software_vulnerabilities". split; [reflexivity|discriminate]. }
  exists chunks. split; [exact Hrun|].
  apply Forall2_length in Hchunks. rewrite <- Hchunks. reflexivity.
Defined.

(** ** Timestamps tell runs apart *)

Lemma digit_inj a b : digit a = digit b -> a mod 10 = b mod 10.
Proof. intros H. by rewrite <- !digit_value_digit, H. Qed.

(** X16. The timestamp always has 15 characters, and two runs started at
    different valid times get different timestamps, hence different local
    file names and destination paths. *)
Theorem X16_timestamp_injective d1 d2 :
  String.length (strftime d1) = 15%nat /\
  (valid_datetime d1 -> valid_datetime d2 -> strftime d1 = strftime d2 -> d1 = d2).
Proof.
  split; [reflexivity|].
  intros (Hy1 & Hm1 & Hd1 & Hh1 & Hmi1 & Hs1) (Hy2 & Hm2 & Hd2 & Hh2 & Hmi2 & Hs2).
  unfold strftime, zero_pad4, zero_pad2. cbn [String.append].
  intros H. injection H as Y1 Y2 Y3 Y4 M1 M2 D1 D2 h1 h2 m1 m2 s1 s2.
  apply digit_inj in Y1, Y2, Y3, Y4, M1, M2, D1, D2, h1, h2, m1, m2, s1, s2.
  destruct d1, d2; simpl in *. f_equal; Z.div_mod_to_equations; lia.
Qed.

Lemma X16_timestamp_injective_witness :
  valid_datetime (utcnow sample_services) /\
  strftime (utcnow sample_services) = "20240307_090500" /\
  utcnow sample_services =
    {| year := 2024; month := 3; day := 7; hour := 9; minute := 5; second := 0 |}.
Proof.
  assert (Hvalid : valid_datetime (utcnow sample_services))
    by (unfold valid_datetime; simpl; lia).
  split; [exact Hvalid|]. split; [reflexivity|].
  apply (proj2 (X16_timestamp_injective (utcnow sample_services)
                  {| year := 2024; month := 3; day := 7;
                     hour := 9; minute := 5; second := 0 |}) Hvalid Hvalid).
  reflexivity.
Defined.

(** ** Paths do not collide *)

Lemma list_ascii_of_string_app s1 s2 :
  String.list_ascii_of_string (s1 +:+ s2) =
  String.list_ascii_of_string s1 ++ String.list_ascii_of_string s2.
Proof. induction s1 as [|c s1 IH]; simpl; [done|]. by rewrite IH. Qed.

Lemma string_app_inv_tail s1 s2 tail : s1 +:+ tail = s2 +:+ tail -> s1 = s2.
Proof.
  intros H. apply (f_equal String.list_ascii_of_string) in H.
  rewrite !list_ascii_of_string_app in H. apply app_inv_tail in H.
  rewrite <- (String.string_of_list_ascii_of_string s1),
    <- (String.string_of_list_ascii_of_string s2).
  by rewrite H.
Qed.

(** X17. Within one project and one run, two categories write different
    local files, and their workbooks go to different destinations unless
    the two categories share a folder; the two folders of the hardcoded
    category map differ, so no upload of a project overwrites another. *)
Theorem X17_paths_do_not_collide :
  (forall PROJECT_ID TIMESTAMP c1 c2,
     output_excel PROJECT_ID c1 TIMESTAMP = output_excel PROJECT_ID c2 TIMESTAMP ->
     c1 = c2) /\
  (forall PROJECT_ID TIMESTAMP proj top1 top2,
     gcs_excel_path top1 proj PROJECT_ID TIMESTAMP =
     gcs_excel_path top2 proj PROJECT_ID TIMESTAMP -> top1 = top2) /\
  (forall c1 c2 top,
     CATEGORY_FOLDER_MAP !! c1 = Some top -> CATEGORY_FOLDER_MAP !! c2 = Some top ->
     c1 = c2).
Proof.
  split; [|split].
  - intros pid ts c1 c2. unfold output_excel. intros H.
    apply (inj (String.append "/tmp/scc_")) in H.
    apply (inj (String.append pid)) in H.
    apply (inj (String.append "_")) in H.
    by apply string_app_inv_tail in H.
  - intros pid ts proj top1 top2. unfold gcs_excel_path. intros H.
    apply (inj (String.append "SCC-Reports/")) in H.
    by apply string_app_inv_tail in H.
  - intros c1 c2 top. rewrite !CATEGORY_FOLDER_MAP_lookup.
    repeat case_decide; intros Hc1 Hc2; congruence.
Qed.

Lemma X17_paths_witness :
  CATEGORY_FOLDER_MAP !! "SOFTWARE_VULNERABILITY" = Some "software_vulnerabilities" /\
  output_excel "toorak-396910" "SOFTWARE_VULNERABILITY" "20240307_090500" =
    "/tmp/scc_toorak-396910_SOFTWARE_VULNERABILITY_20240307_090500.xlsx" /\
  "SOFTWARE_VULNERABILITY" = "SOFTWARE_VULNERABILITY".
Proof.
  split; [reflexivity|]. split; [reflexivity|].
  destruct X17_paths_do_not_collide as (Hlocal & _ & Hmap).
  apply (Hmap "SOFTWARE_VULNERABILITY" "SOFTWARE_VULNERABILITY" "software_vulnerabilities");
    reflexivity.
Defined.
